(** * Intent classifier of the hybrid product-catalog question answerer

    A shallow embedding of [classifier.py]: the whole-word keyword matcher,
    the confidence scorer, the product-name detector, the override check, the
    decision procedure [classify_intent], the memoised language-model
    fallback [_llm_classify] and the debug helper
    [get_classification_details], followed by the properties established
    about them.

    Python strings are sequences of Unicode code points.  The behaviour of
    the builtins on ASCII is written out; the Unicode character database,
    which is not part of the repository, is taken as a parameter
    ([UnicodeData]) and consulted for code points from 128 on. *)

From Stdlib Require Import List NArith Bool String Ascii Lia PeanoNat.
Import ListNotations.

(* ================================================================= *)
(** ** Strings *)

(** A Python [str]: a list of code points. *)
Definition str := list N.

(** The code points of an ASCII literal. *)
Definition py (s : string) : str := map N_of_ascii (list_ascii_of_string s).

Arguments py s%_string.

(** A list of ASCII literals, as a list of Python strings. *)
Definition phrases (l : list string) : list str := map py l.


Definition chr_eqb (a b : N) : bool := N.eqb a b.

Fixpoint str_eqb (a b : str) : bool :=
  match a, b with
  | [], [] => true
  | x :: a', y :: b' => chr_eqb x y && str_eqb a' b'
  | _, _ => false
  end.

(** The tables of the Unicode character database that the builtins and the
    [re] module look up, for code points outside ASCII. *)
Class UnicodeData := {
  (** [str.isalnum] of a single character: what [\w] accepts besides [_]. *)
  uni_isalnum : N -> bool;
  (** [str.isspace] of a single character: [\s], [strip] and [split]. *)
  uni_isspace : N -> bool;
  (** [str.isdecimal] of a single character: [\d]. *)
  uni_isdecimal : N -> bool;
  (** [str.lower] of a string that holds a non-ASCII character (the mapping
      is not character by character there: it can lengthen the string and
      depends on the context of a capital sigma). *)
  uni_lower : str -> str;
  (** The lowercase ASCII letter that case-insensitive matching identifies
      a non-ASCII character with, when there is one (the long s with [s],
      the Kelvin sign with [k], ...). *)
  uni_ignorecase_ascii : N -> option N
}.

Section Classifier.

Context {U : UnicodeData}.

Definition is_ascii (c : N) : bool := (c <? 128)%N.

Definition in_range (lo hi c : N) : bool := ((lo <=? c) && (c <=? hi))%N.

Definition ascii_upper_letter (c : N) : bool := in_range 65 90 c.
Definition ascii_lower_letter (c : N) : bool := in_range 97 122 c.
Definition ascii_digit (c : N) : bool := in_range 48 57 c.

(** [\t \n \v \f \r], the four separators 0x1c-0x1f and the space. *)
Definition ascii_space (c : N) : bool :=
  in_range 9 13 c || in_range 28 31 c || (c =? 32)%N.

Definition ascii_lower (c : N) : N :=
  if ascii_upper_letter c then (c + 32)%N else c.

(** [\w]: alphanumeric or the underscore. *)
Definition is_word (c : N) : bool :=
  if is_ascii c
  then ascii_upper_letter c || ascii_lower_letter c || ascii_digit c
       || (c =? 95)%N
  else uni_isalnum c.

(** [\s], and the characters [strip] and [split] treat as blank. *)
Definition is_space (c : N) : bool :=
  if is_ascii c then ascii_space c else uni_isspace c.

(** [\d]. *)
Definition is_digit (c : N) : bool :=
  if is_ascii c then ascii_digit c else uni_isdecimal c.

(** [s.lower()]. *)
Definition str_lower (s : str) : str :=
  if forallb is_ascii s then map ascii_lower s else uni_lower s.

Fixpoint drop_space (s : str) : str :=
  match s with
  | c :: s' => if is_space c then drop_space s' else s
  | [] => []
  end.

(** [s.strip()]. *)
Definition str_strip (s : str) : str :=
  rev (drop_space (rev (drop_space s))).

(** [s.split()]: the maximal runs of non-blank characters, in order.
    [cur] is the run being read, reversed. *)
Fixpoint split_from (cur : str) (s : str) : list str :=
  match s with
  | [] => match cur with [] => [] | _ => [rev cur] end
  | c :: s' =>
      if is_space c
      then match cur with
           | [] => split_from [] s'
           | _ => rev cur :: split_from [] s'
           end
      else split_from (c :: cur) s'
  end.

Definition str_split (s : str) : list str := split_from [] s.

Fixpoint starts_with (prefix s : str) : bool :=
  match prefix, s with
  | [], _ => true
  | p :: prefix', c :: s' => chr_eqb p c && starts_with prefix' s'
  | _ :: _, [] => false
  end.

(** [needle in s]. *)
Fixpoint str_in (needle s : str) : bool :=
  starts_with needle s
  || match s with
     | [] => false
     | _ :: s' => str_in needle s'
     end.

(* ================================================================= *)
(** ** The fragment of [re] the classifier uses *)

(** Character sets that occur under a repetition. *)
Inductive charset :=
| Letters   (** [[A-Za-z]] *)
| Spaces    (** [\s] *)
| Digits.   (** [\d] *)

(** The items a pattern is a sequence of. *)
Inductive item :=
| Boundary                                            (** [\b] *)
| Literal (s : str)                                   (** escaped text *)
| OneOf (alternatives : list str)                     (** [(a|b|...)] *)
| Repeat (cs : charset) (lo : nat) (hi : option nat). (** [cs{lo,hi}] *)

Definition pattern := list item.

(** The key under which [re.IGNORECASE] compares a character. *)
Definition ignorecase_key (c : N) : N :=
  if is_ascii c then ascii_lower c
  else match uni_ignorecase_ascii c with
       | Some a => a
       | None => c
       end.

(** One pattern character against one text character. *)
Definition chr_match (ignorecase : bool) (p c : N) : bool :=
  chr_eqb p c
  || (ignorecase && chr_eqb (ignorecase_key p) (ignorecase_key c)).

Definition in_charset (ignorecase : bool) (cs : charset) (c : N) : bool :=
  match cs with
  | Letters =>
      if ignorecase
      then ascii_lower_letter (ignorecase_key c)
      else ascii_upper_letter c || ascii_lower_letter c
  | Spaces => is_space c
  | Digits => is_digit c
  end.

Definition word_before (prev : option N) : bool :=
  match prev with
  | Some c => is_word c
  | None => false
  end.

Definition word_at (s : str) : bool :=
  match s with
  | c :: _ => is_word c
  | [] => false
  end.

(** [\b] holds between [prev] and the rest [s] of the text when exactly one
    side is a word character; the ends of the text count as non-word. *)
Definition at_boundary (prev : option N) (s : str) : bool :=
  xorb (word_before prev) (word_at s).

(** Reads the literal [l] off the front of [s]: the last character read
    (or [prev] when [l] is empty) and the rest of the text. *)
Fixpoint read_literal (ignorecase : bool) (l : str) (prev : option N)
    (s : str) : option (option N * str) :=
  match l with
  | [] => Some (prev, s)
  | p :: l' =>
      match s with
      | c :: s' =>
          if chr_match ignorecase p c
          then read_literal ignorecase l' (Some c) s'
          else None
      | [] => None
      end
  end.

Definition may_take (hi : option nat) : bool :=
  match hi with
  | Some 0 => false
  | _ => true
  end.

(** A repetition followed by the continuation [k]: every admissible number
    of characters of the set is tried. *)
Fixpoint match_repeat (ignorecase : bool) (cs : charset) (lo : nat)
    (hi : option nat) (k : option N -> str -> bool) (prev : option N)
    (s : str) : bool :=
  (Nat.eqb lo 0 && k prev s)
  || match s with
     | c :: s' =>
         may_take hi && in_charset ignorecase cs c
         && match_repeat ignorecase cs (Nat.pred lo) (option_map Nat.pred hi)
              k (Some c) s'
     | [] => false
     end.

(** Does the pattern match starting exactly here? *)
Fixpoint match_here (ignorecase : bool) (p : pattern) (prev : option N)
    (s : str) : bool :=
  match p with
  | [] => true
  | Boundary :: p' => at_boundary prev s && match_here ignorecase p' prev s
  | Literal l :: p' =>
      match read_literal ignorecase l prev s with
      | Some (prev', s') => match_here ignorecase p' prev' s'
      | None => false
      end
  | OneOf alternatives :: p' =>
      existsb
        (fun l =>
           match read_literal ignorecase l prev s with
           | Some (prev', s') => match_here ignorecase p' prev' s'
           | None => false
           end)
        alternatives
  | Repeat cs lo hi :: p' =>
      match_repeat ignorecase cs lo hi (match_here ignorecase p') prev s
  end.

Fixpoint search_from (ignorecase : bool) (p : pattern) (prev : option N)
    (s : str) : bool :=
  match_here ignorecase p prev s
  || match s with
     | c :: s' => search_from ignorecase p (Some c) s'
     | [] => false
     end.

(** [bool(re.search(p, s, flags))]. *)
Definition re_search (ignorecase : bool) (p : pattern) (s : str) : bool :=
  search_from ignorecase p None s.

(** [re.escape(keyword)] yields a pattern that matches [keyword] literally. *)
Definition re_escape (keyword : str) : item := Literal keyword.

(* ================================================================= *)
(** ** Word-boundary matcher *)

Definition _contains_keyword (text keyword : str) : bool :=
  let pattern := [Boundary; re_escape keyword; Boundary] in
  re_search false pattern text.

(* ================================================================= *)
(** ** Keyword lists *)

Definition DEFINITE_SQL : list str :=
  phrases
   ["how many"; "count"; "number of"; "total number";
    "how many products in stock"; "how many available"; "average"; "avg";
    "mean"; "sum"; "total"; "average price"; "avg price"; "average rating";
    "avg rating"; "average discount"; "avg discount"; "average delivery";
    "avg delivery"; "average score"; "avg score"; "total stock";
    "total inventory"; "stock available"; "total sales"; "total units";
    "units sold"; "total revenue"; "revenue"; "total reviews";
    "review count"; "most expensive"; "highest price"; "costliest";
    "cheapest"; "lowest price"; "least expensive"; "best rated";
    "highest rated"; "top rated"; "worst rated"; "lowest rated";
    "best selling"; "most sold"; "top selling"; "popular";
    "highest discount"; "most discount"; "best deal"; "biggest discount";
    "fastest delivery"; "quickest delivery"; "highest score"; "best score";
    "highest seller rating"; "best seller"; "most reviewed"; "most reviews";
    "longest warranty"; "best warranty"; "lightest"; "heaviest"; "under";
    "below"; "less than"; "cheaper than"; "above"; "over"; "more than";
    "greater than"; "between"; "with rating above"; "rating above";
    "with rating below"; "rating below"; "rating greater"; "rating less";
    "sort by price"; "order by price"; "sort by rating"; "order by rating";
    "sort by discount"; "top 5"; "top 10"; "top 3"; "first 5"; "first 10";
    "in stock"; "out of stock"; "list all"; "show all"; "all products";
    "group by"; "breakdown"; "distribution"; "minimum"; "maximum";
    "which city"; "seller count"; "how many sellers"; "how many cities";
    "listed in"; "listed on"; "listed after"; "listed before"; "newest";
    "oldest"; "recent"; "returnable products"; "non returnable";
    "accept cod"; "accept upi"; "accept card"; "accept wallet";
    "payment mode"]%string.

Definition DEFINITE_SEMANTIC : list str :=
  phrases
   ["what is the price"; "price of"; "cost of"; "how much is";
    "how much does"; "tell me about"; "describe"; "details of"; "info about";
    "information about"; "about the product"; "is there"; "do you have";
    "is it available"; "available in"; "warranty of"; "warranty on";
    "return policy of"; "return window"; "delivery time for"; "when will";
    "color of"; "size of"; "weight of"; "seller of"; "who sells"; "where is";
    "payment modes for"; "how to pay"; "rating of"; "reviews of";
    "discount on"; "offer on"; "seller rating of"; "show me"; "find me";
    "search for"; "recommend"; "suggest"; "similar to"; "like the";
    "is there any"; "any product"; "any brand"; "do you sell"]%string.

(** [\b(model|edition|...|plus)\b] and [\b[A-Za-z]+\s+\d{2,4}\b]. *)
Definition PRODUCT_NAME_PATTERNS : list pattern :=
  [ [Boundary;
     OneOf (phrases ["model"; "edition"; "series"; "prime"; "ultra"; "pro";
                     "max"; "mini"; "lite"; "plus"]%string);
     Boundary];
    [Boundary; Repeat Letters 1 None; Repeat Spaces 1 None;
     Repeat Digits 2 (Some 4); Boundary] ].

Definition OVERRIDE_SQL_KEYWORDS : list str :=
  phrases ["how many"; "count"; "average"; "avg"; "total"; "sum"; "list all";
           "show all"; "top 5"; "top 10"; "top 3"]%string.

(* ================================================================= *)
(** ** Product-name detector, override check and confidence scorer *)

(** The loop returns at the first pattern found with [re.IGNORECASE]. *)
Definition _is_product_name_query (q : str) : bool :=
  existsb (fun pattern => re_search true pattern q) PRODUCT_NAME_PATTERNS.

Definition _has_override_sql (q : str) : bool :=
  existsb (fun kw => _contains_keyword q kw) OVERRIDE_SQL_KEYWORDS.

(** [sum(1 for kw in keywords if _contains_keyword(q, kw))]. *)
Definition count_matching (q : str) (keywords : list str) : nat :=
  list_sum (map (fun _ => 1) (filter (fun kw => _contains_keyword q kw) keywords)).

Definition _compute_scores (q : str) : nat * nat :=
  let sql_score := count_matching q DEFINITE_SQL in
  let semantic_score := count_matching q DEFINITE_SEMANTIC in
  (sql_score, semantic_score).

End Classifier.

(* ================================================================= *)
(** ** The process state and the effects of the module *)

(** What the module can raise: the [IndexError] of an out-of-range index,
    and whatever the language-model client raises. *)
Inductive exn :=
| IndexError
| ExternalError (code : nat).

(** The messages sent to the language model. *)
Inductive message :=
| SystemMessage (content : str)
| HumanMessage (content : str).

(** What [model.invoke] does: it raises, or returns a result whose
    [content] is a text. *)
Inductive reply :=
| Fails (e : exn)
| Replies (content : str).

(** One past call of [invoke]: the identity of the model and the messages. *)
Definition call := (nat * list message)%type.

(** A chat model: an object with an identity (it is hashed and compared by
    it) and an [invoke] method, whose answer may depend on the calls made
    so far in the run. *)
Record ChatModel := {
  model_id : nat;
  invoke : list call -> list message -> reply
}.

(** The records written to [classifier_log.txt]: a decision at level INFO,
    an ambiguous question at level WARNING.  The fields are the values
    interpolated in the line; its layout (padding, the upper-cased intent,
    the time stamp) is not modelled. *)
Inductive log_record :=
| Decision (question intent method : str) (sql_score sem_score : nat)
| Ambiguous (question : str) (sql_score sem_score : nat).

(** The key of the memoisation table: the arguments of the call. *)
Definition cache_key := (str * nat)%type.

(** The state the module reads and writes.  Lists are newest first; the
    memoisation table is ordered from the most to the least recently used
    entry. *)
Record World := {
  log : list log_record;
  stdout : list str;
  llm_cache : list (cache_key * str);
  llm_calls : list call
}.

Inductive outcome (A : Type) :=
| Returns (a : A)
| Raises (e : exn).

Arguments Returns {A} a.
Arguments Raises {A} e.

(** A computation that reads and updates the state and may raise. *)
Definition Py (A : Type) : Type := World -> outcome A * World.

Definition ret {A} (a : A) : Py A := fun w => (Returns a, w).

Definition raise {A} (e : exn) : Py A := fun w => (Raises e, w).

Definition bind {A B} (c : Py A) (k : A -> Py B) : Py B :=
  fun w =>
    match c w with
    | (Returns a, w') => k a w'
    | (Raises e, w') => (Raises e, w')
    end.

Notation "x <- c ;; k" := (bind c (fun x => k))
  (at level 61, c at next level, right associativity).
Notation "c ;; k" := (bind c (fun _ => k))
  (at level 61, right associativity).

Definition emit (r : log_record) : Py unit :=
  fun w =>
    (Returns tt,
     {| log := r :: log w; stdout := stdout w;
        llm_cache := llm_cache w; llm_calls := llm_calls w |}).

Definition print_line (line : str) : Py unit :=
  fun w =>
    (Returns tt,
     {| log := log w; stdout := line :: stdout w;
        llm_cache := llm_cache w; llm_calls := llm_calls w |}).

Definition get_cache : Py (list (cache_key * str)) :=
  fun w => (Returns (llm_cache w), w).

Definition put_cache (c : list (cache_key * str)) : Py unit :=
  fun w =>
    (Returns tt,
     {| log := log w; stdout := stdout w;
        llm_cache := c; llm_calls := llm_calls w |}).

(** [model.invoke(messages)]: the call is recorded, then the model answers
    or raises. *)
Definition model_invoke (model : ChatModel) (messages : list message)
  : Py str :=
  fun w =>
    let w' := {| log := log w; stdout := stdout w;
                 llm_cache := llm_cache w;
                 llm_calls := (model_id model, messages) :: llm_calls w |} in
    match invoke model (llm_calls w) messages with
    | Replies content => (Returns content, w')
    | Fails e => (Raises e, w')
    end.

(* ================================================================= *)
(** ** Telemetry *)

Definition _log_decision (question intent method : str)
    (sql_score sem_score : nat) : Py unit :=
  emit (Decision question intent method sql_score sem_score).

Definition arrow : str := [8594%N].
Definition newline : str := [10%N].
Definition warning_sign : str := [9888%N; 65039%N].

Definition _log_ambiguous (question : str) (sql_score sem_score : nat)
  : Py unit :=
  emit (Ambiguous question sql_score sem_score) ;;
  print_line (warning_sign ++ py "  Ambiguous query " ++ arrow
              ++ py " LLM classifying: '" ++ question ++ py "'").

(* ================================================================= *)
(** ** The memoised language-model fallback *)

Definition key_eqb (a b : cache_key) : bool :=
  str_eqb (fst a) (fst b) && Nat.eqb (snd a) (snd b).

Fixpoint cache_find (key : cache_key) (c : list (cache_key * str))
  : option str :=
  match c with
  | [] => None
  | (k, v) :: c' => if key_eqb key k then Some v else cache_find key c'
  end.

Fixpoint cache_remove (key : cache_key) (c : list (cache_key * str))
  : list (cache_key * str) :=
  match c with
  | [] => []
  | (k, v) :: c' =>
      if key_eqb key k then c' else (k, v) :: cache_remove key c'
  end.

(** [functools.lru_cache(maxsize)] around a function of the question and
    the model.  A hit returns the stored result and makes the entry the
    most recent one; a miss calls the function and, when it returns, stores
    the result, dropping the least recently used entry of a full table.  A
    call that raises stores nothing. *)
Definition lru_cache (maxsize : nat) (f : str -> ChatModel -> Py str)
    (question : str) (model : ChatModel) : Py str :=
  let key := (question, model_id model) in
  c <- get_cache ;;
  match cache_find key c with
  | Some result =>
      put_cache ((key, result) :: cache_remove key c) ;;
      ret result
  | None =>
      result <- f question model ;;
      c <- get_cache ;;
      match cache_find key c with
      | Some _ => ret result
      | None =>
          (if Nat.leb maxsize (List.length c)
           then put_cache ((key, result) :: removelast c)
           else put_cache ((key, result) :: c)) ;;
          ret result
      end
  end.

Section Decision.

Context {U : UnicodeData}.

Definition example_line (question label : string) : str :=
  py question ++ arrow ++ py " " ++ py label.

Definition SYSTEM_PROMPT : str :=
  py "You are an intent classifier for a product store chatbot." ++ newline
  ++ py "Output ONLY one word: sql OR semantic" ++ newline ++ newline
  ++ py "sql      = counting, totals, averages, rankings, "
  ++ py "comparisons, price filters, groupings, stock queries" ++ newline
  ++ py "semantic = specific product details, descriptions, "
  ++ py "availability, price of a named product, attributes"
  ++ newline ++ newline
  ++ py "Examples:" ++ newline
  ++ example_line "adidas products under 30000          " "sql" ++ newline
  ++ example_line "good products for gifting            " "semantic"
  ++ newline
  ++ example_line "products with highest product_score  " "sql" ++ newline
  ++ example_line "which products accept COD            " "sql" ++ newline
  ++ example_line "tell me about boat prime 291         " "semantic"
  ++ newline
  ++ example_line "is redmi model 35 returnable         " "semantic"
  ++ newline
  ++ example_line "brands available in hyderabad        " "sql" ++ newline
  ++ example_line "products listed in 2023              " "sql" ++ newline
  ++ example_line "popular color options                " "semantic"
  ++ newline
  ++ example_line "adidas ultra 664 details             " "semantic"
  ++ newline
  ++ example_line "top 5 cheapest nike                  " "sql" ++ newline
  ++ example_line "out of stock products                " "sql".

(** The body under the decorator. *)
Definition _llm_classify_wrapped (question : str) (model : ChatModel)
  : Py str :=
  let messages :=
    [SystemMessage SYSTEM_PROMPT; HumanMessage (py "Q: " ++ question)] in
  content <- model_invoke model messages ;;
  match str_split (str_lower (str_strip content)) with
  | [] => raise IndexError
  | intent :: _ =>
      ret (if str_in (py "sql") intent then py "sql" else py "semantic")
  end.

Definition _llm_classify : str -> ChatModel -> Py str :=
  lru_cache 256 _llm_classify_wrapped.

(* ================================================================= *)
(** ** Main classifier *)

Definition classify_intent (question : str) (model : option ChatModel)
  : Py str :=
  let q := str_strip (str_lower question) in
  if _is_product_name_query q && negb (_has_override_sql q) then
    _log_decision question (py "semantic") (py "product_name_pattern") 0 0 ;;
    ret (py "semantic")
  else
    let '(sql_score, semantic_score) := _compute_scores q in
    if (0 <? sql_score) && (semantic_score =? 0) then
      _log_decision question (py "sql") (py "keyword_only")
        sql_score semantic_score ;;
      ret (py "sql")
    else if (0 <? semantic_score) && (sql_score =? 0) then
      _log_decision question (py "semantic") (py "keyword_only")
        sql_score semantic_score ;;
      ret (py "semantic")
    else if semantic_score <? sql_score then
      _log_decision question (py "sql") (py "confidence_winner")
        sql_score semantic_score ;;
      ret (py "sql")
    else if sql_score <? semantic_score then
      _log_decision question (py "semantic") (py "confidence_winner")
        sql_score semantic_score ;;
      ret (py "semantic")
    else
      _log_ambiguous question sql_score semantic_score ;;
      match model with
      | Some model =>
          intent <- _llm_classify question model ;;
          _log_decision question intent (py "llm_fallback")
            sql_score semantic_score ;;
          ret intent
      | None =>
          _log_decision question (py "semantic") (py "default_fallback")
            sql_score semantic_score ;;
          ret (py "semantic")
      end.

(* ================================================================= *)
(** ** Debug helper *)

(** The dictionary [get_classification_details] returns, one field a key. *)
Record details := {
  d_question : str;
  d_intent : str;
  d_sql_score : nat;
  d_semantic_score : nat;
  d_method : str;
  d_product_pattern : bool;
  d_sql_override : bool
}.

Definition get_classification_details (question : str) : details :=
  let q := str_strip (str_lower question) in
  let '(sql_score, sem) := _compute_scores q in
  let has_product := _is_product_name_query q in
  let has_override := _has_override_sql q in
  let '(intent, method) :=
    if has_product && negb has_override then
      (py "semantic", py "product_name_pattern")
    else if sem <? sql_score then
      (py "sql",
       if 0 <? sem then py "confidence_winner" else py "keyword_only")
    else if sql_score <? sem then
      (py "semantic",
       if 0 <? sql_score then py "confidence_winner" else py "keyword_only")
    else
      (py "ambiguous", py "needs_llm_fallback") in
  {| d_question := question;
     d_intent := intent;
     d_sql_score := sql_score;
     d_semantic_score := sem;
     d_method := method;
     d_product_pattern := has_product;
     d_sql_override := has_override |}.

End Decision.

(* ================================================================= *)
(** ** Vocabulary of the properties *)

Section Vocabulary.

Context {U : UnicodeData}.

(** The last character of [s], or [prev] when [s] is empty. *)
Fixpoint last_from (prev : option N) (s : str) : option N :=
  match s with
  | [] => prev
  | c :: s' => last_from (Some c) s'
  end.

Definition last_chr (s : str) : option N := last_from None s.

(** The phrase occurs in the text with no word character right before it
    and none right after it. *)
Definition occurs_as_whole_word (phrase text : str) : Prop :=
  exists before after,
    text = before ++ phrase ++ after
    /\ word_before (last_chr before) = false
    /\ word_at after = false.


Definition ascii_codes : list N := map N.of_nat (seq 0 128).


(** A phrase that begins and ends with a word character. *)
Definition word_delimited (phrase : str) : bool :=
  word_at phrase && word_before (last_chr phrase).

Definition is_label (s : str) : Prop := s = py "sql" \/ s = py "semantic".

(** The methods logged for a question that is not ambiguous. *)
Definition is_decided_method (method : str) : Prop :=
  method = py "product_name_pattern"
  \/ method = py "keyword_only"
  \/ method = py "confidence_winner".

(** The messages [_llm_classify] sends for a question. *)
Definition messages_for (question : str) : list message :=
  [SystemMessage SYSTEM_PROMPT; HumanMessage (py "Q: " ++ question)].

(** The first word of a reply, as [_llm_classify] reads it. *)
Definition first_token (content : str) : option str :=
  match str_split (str_lower (str_strip content)) with
  | [] => None
  | intent :: _ => Some intent
  end.

(** The line printed for an ambiguous question. *)
Definition ambiguous_line (question : str) : str :=
  warning_sign ++ py "  Ambiguous query " ++ arrow
  ++ py " LLM classifying: '" ++ question ++ py "'".

(** The state once the warning of an ambiguous question is written. *)
Definition warned (question : str) (score : nat) (w : World) : World :=
  {| log := Ambiguous question score score :: log w;
     stdout := ambiguous_line question :: stdout w;
     llm_cache := llm_cache w;
     llm_calls := llm_calls w |}.

(** The state once a decision is logged. *)
Definition decided (question intent method : str) (sql_score sem_score : nat)
    (w : World) : World :=
  {| log := Decision question intent method sql_score sem_score :: log w;
     stdout := stdout w;
     llm_cache := llm_cache w;
     llm_calls := llm_calls w |}.



(** The question reaches the tie of the two scores, in the words of the
    debug helper. *)
Definition ambiguous (question : str) : Prop :=
  d_intent (get_classification_details question) = py "ambiguous".

(** [text'] extends [text] so that one more structured phrase matches,
    [phrase]: it did not match and now does, and every other structured
    phrase matches as before. *)
Definition adds_structured_phrase (phrase text text' : str) : Prop :=
  In phrase DEFINITE_SQL
  /\ (exists extra, text' = text ++ extra)
  /\ _contains_keyword text phrase = false
  /\ _contains_keyword text' phrase = true
  /\ (forall other, In other DEFINITE_SQL -> other <> phrase ->
        _contains_keyword text' other = _contains_keyword text other).

(** Monotonicity of the scores in the strongest reading of "adding one
    structured phrase": the structured score does not decrease and the
    semantic score stays as it was. *)
Definition scores_monotone_under_additions : Prop :=
  forall phrase text text',
    adds_structured_phrase phrase text text' ->
    fst (_compute_scores text) <= fst (_compute_scores text')
    /\ snd (_compute_scores text') = snd (_compute_scores text).

End Vocabulary.

(** Tables of a character database that knows nothing outside ASCII.  A
    question made of ASCII characters is classified in the same way under
    every choice of tables; these serve to run the classifier on such
    questions. *)
Definition ascii_tables : UnicodeData := {|
  uni_isalnum := fun _ => false;
  uni_isspace := fun _ => false;
  uni_isdecimal := fun _ => false;
  uni_lower := fun s => s;
  uni_ignorecase_ascii := fun _ => None
|}.

(** A fresh process: nothing logged, printed, memoised or sent. *)
Definition fresh : World :=
  {| log := []; stdout := []; llm_cache := []; llm_calls := [] |}.

(** A model that always answers with the same text. *)
Definition model_saying (id : nat) (content : str) : ChatModel :=
  {| model_id := id; invoke := fun _ _ => Replies content |}.

(** A model whose every call raises. *)
Definition model_down (id : nat) : ChatModel :=
  {| model_id := id; invoke := fun _ _ => Fails (ExternalError 503) |}.

(* ================================================================= *)
(** ** Vocabulary of the further properties *)

(** The character before, lowered, for a text that is lowered. *)
Definition lower_prev (prev : option N) : option N :=
  option_map ascii_lower prev.

(** The character before and the text are ASCII. *)
Definition all_ascii (prev : option N) (s : str) : bool :=
  match prev with Some c => is_ascii c | None => true end
  && forallb is_ascii s.

(* ================================================================= *)
(** * Rule-based SQL generation ([text_to_sql.py]) *)

(** What the interpreter adds to the character database: the value of a
    decimal digit outside ASCII, and the limit on the number of digits
    [int] accepts in a text ([sys.get_int_max_str_digits()], 4300 unless
    changed, 0 for no limit). *)
Class PythonRuntime := {
  uni_decimal_value : N -> N;
  int_max_str_digits : nat
}.

(** The exceptions of this module: [ValueError] ([int] on a text with too
    many digits or that is no number, a grouping of thousands asked of a
    text), [TypeError] ([int] or a grouping asked of [None]) and
    [OverflowError] ([int] of an infinite number). *)
Inductive sql_exn :=
| ValueError
| TypeError
| OverflowError.

Inductive result (A : Type) :=
| Value (a : A)
| Error (e : sql_exn).

Arguments Value {A} a.
Arguments Error {A} e.

(** The decimal digits of a number, most significant first. *)
Fixpoint uint_chars (u : Decimal.uint) : str :=
  match u with
  | Decimal.Nil => []
  | Decimal.D0 u => 48%N :: uint_chars u
  | Decimal.D1 u => 49%N :: uint_chars u
  | Decimal.D2 u => 50%N :: uint_chars u
  | Decimal.D3 u => 51%N :: uint_chars u
  | Decimal.D4 u => 52%N :: uint_chars u
  | Decimal.D5 u => 53%N :: uint_chars u
  | Decimal.D6 u => 54%N :: uint_chars u
  | Decimal.D7 u => 55%N :: uint_chars u
  | Decimal.D8 u => 56%N :: uint_chars u
  | Decimal.D9 u => 57%N :: uint_chars u
  end.

(** [str(n)] and [f"{n}"] for a natural number. *)
Definition str_of_int (n : N) : str := uint_chars (N.to_uint n).

(** [sep.join(parts)]. *)
Fixpoint str_join (sep : str) (parts : list str) : str :=
  match parts with
  | [] => []
  | [p] => p
  | p :: rest => p ++ sep ++ str_join sep rest
  end.


(** Neither of the two comparison signs. *)
Definition no_comparison (c : N) : bool :=
  negb (chr_eqb c 60) && negb (chr_eqb c 62).

Section TextToSql.

Context {U : UnicodeData} {R : PythonRuntime}.

Definition BRANDS : list str :=
  phrases ["adidas"; "nike"; "dell"; "sony"; "lg"; "puma";
           "boat"; "redmi"; "samsung"; "apple"; "hp"; "lenovo"]%string.

Definition CATEGORIES : list str :=
  phrases ["electronics"; "fashion"; "appliances"; "toys";
           "sports"; "mobiles"; "home & kitchen"; "beauty"]%string.

Definition ascii_upper (c : N) : N :=
  if ascii_lower_letter c then (c - 32)%N else c.

(** [s.capitalize()], which is applied to the brand names, ASCII texts:
    the first character in upper case, the others in lower case. *)
Definition str_capitalize (s : str) : str :=
  match s with
  | [] => []
  | c :: s' => ascii_upper c :: map ascii_lower s'
  end.

(** [s.title()], which is applied to the category names, ASCII texts: a
    letter is put in upper case when no letter stands before it and in
    lower case otherwise. *)
Fixpoint title_from (after_letter : bool) (s : str) : str :=
  match s with
  | [] => []
  | c :: s' =>
      if ascii_upper_letter c || ascii_lower_letter c
      then (if after_letter then ascii_lower c else ascii_upper c)
           :: title_from true s'
      else c :: title_from false s'
  end.

Definition str_title (s : str) : str := title_from false s.

(** The first element of the list that occurs in [q], transformed. *)
Fixpoint first_occurring (names : list str) (q : str) : option str :=
  match names with
  | [] => None
  | b :: names' => if str_in b q then Some b else first_occurring names' q
  end.

Definition _extract_brand (q : str) : option str :=
  option_map str_capitalize (first_occurring BRANDS q).

Definition _extract_category (q : str) : option str :=
  option_map str_title (first_occurring CATEGORIES q).

Definition rupee : N := 8377%N.
Definition comma : N := 44%N.

(** [[\d,]*], greedy: the longest run of digits and commas, and the rest. *)
Fixpoint digits_and_commas (s : str) : str :=
  match s with
  | c :: s' => if is_digit c || chr_eqb c comma
               then c :: digits_and_commas s' else []
  | [] => []
  end.

(** The group, a digit and then [[\d,]*], matched at the head of [s]. *)
Definition number_here (s : str) : option str :=
  match s with
  | c :: s' => if is_digit c then Some (c :: digits_and_commas s') else None
  | [] => None
  end.

(** [\s*] and then the group: blanks are taken as long as there are some,
    and given back one at a time when no number follows. *)
Fixpoint blanks_then_number (s : str) : option str :=
  match s with
  | c :: s' =>
      if is_space c
      then match blanks_then_number s' with
           | Some group => Some group
           | None => number_here s
           end
      else number_here s
  | [] => None
  end.

(** The whole pattern, with its optional rupee sign, matched at the head
    of [s]: the text of the group. *)
Definition price_here (s : str) : option str :=
  match s with
  | c :: s' =>
      if chr_eqb c rupee
      then match blanks_then_number s' with
           | Some group => Some group
           | None => blanks_then_number s
           end
      else blanks_then_number s
  | [] => None
  end.

(** [re.search]: the match that starts first. *)
Fixpoint price_search (s : str) : option str :=
  match price_here s with
  | Some group => Some group
  | None =>
      match s with
      | _ :: s' => price_search s'
      | [] => None
      end
  end.

(** [s.replace(",", "")]. *)
Definition remove_commas (s : str) : str :=
  filter (fun c => negb (chr_eqb c comma)) s.

Definition digit_value (c : N) : N :=
  if is_ascii c then (c - 48)%N else uni_decimal_value c.

Fixpoint digits_value (acc : N) (digits : str) : N :=
  match digits with
  | [] => acc
  | c :: digits' => digits_value (10 * acc + digit_value c)%N digits'
  end.

(** [int(digits)] for a non-empty text of decimal digits: its value,
    unless there are more digits than the interpreter accepts (the limit
    is looked at for texts of more than 640 digits). *)
Definition int_of_digits (digits : str) : result N :=
  if Nat.ltb 640 (List.length digits)
     && Nat.ltb 0 int_max_str_digits
     && Nat.ltb int_max_str_digits (List.length digits)
  then Error ValueError
  else Value (digits_value 0 digits).

Definition _extract_price (q : str) : result (option N) :=
  match price_search q with
  | Some group =>
      match int_of_digits (remove_commas group) with
      | Value n => Value (Some n)
      | Error e => Error e
      end
  | None => Value None
  end.

(** Truth of an optional text: [None] and the empty text are false. *)
Definition given (o : option str) : bool :=
  match o with
  | Some (_ :: _) => true
  | _ => false
  end.

Definition _build_where (brand category : option str) : str :=
  let parts :=
    (match brand with
     | Some b => if given brand then [py "brand = '" ++ b ++ py "'"] else []
     | None => []
     end)
    ++ (match category with
        | Some c =>
            if given category then [py "category = '" ++ c ++ py "'"] else []
        | None => []
        end) in
  match parts with
  | [] => []
  | _ => py "WHERE " ++ str_join (py " AND ") parts
  end.

(** [any(w in q for w in words)]. *)
Definition any_in (words : list str) (q : str) : bool :=
  existsb (fun w => str_in w q) words.

(** Truth of an optional number: [None] and 0 are false. *)
Definition nonzero (price : option N) : option N :=
  match price with
  | Some 0%N => None
  | _ => price
  end.

Definition generate_sql (question : str) : result str :=
  let q := str_lower question in
  let brand := _extract_brand q in
  let cat := _extract_category q in
  match _extract_price q with
  | Error e => Error e
  | Value price =>
  let where_ := _build_where brand cat in
  Value (
  if any_in (phrases ["how many"; "count"; "number of";
                      "total number"]%string) q then
    py "SELECT COUNT(*) as total FROM products " ++ where_
  else if any_in (phrases ["average rating"; "avg rating"]%string) q then
    py "SELECT ROUND(AVG(rating), 2) as avg_rating FROM products " ++ where_
  else if any_in (phrases ["average price"; "avg price"]%string) q then
    py "SELECT ROUND(AVG(final_price), 2) as avg_price FROM products "
    ++ where_
  else if any_in (phrases ["average discount"; "avg discount"]%string) q then
    py "SELECT ROUND(AVG(discount_percent), 2) as avg_discount FROM products "
    ++ where_
  else if any_in (phrases ["total stock"; "total inventory"]%string) q then
    py "SELECT SUM(stock_available) as total_stock FROM products " ++ where_
  else if any_in (phrases ["total sales"; "total units sold";
                           "units sold"]%string) q then
    py "SELECT SUM(units_sold) as total_sold FROM products " ++ where_
  else if any_in (phrases ["total revenue"; "total value"]%string) q then
    py "SELECT ROUND(SUM(final_price * units_sold), 2) as total_revenue FROM products "
    ++ where_
  else
  match nonzero price,
        any_in (phrases ["under"; "below"; "less than";
                         "cheaper than"]%string) q,
        any_in (phrases ["above"; "over"; "more than";
                         "greater than"]%string) q with
  | Some price, true, _ =>
      let extra :=
        match where_ with
        | [] => py "WHERE final_price < " ++ str_of_int price
        | _ => py "AND final_price < " ++ str_of_int price
        end in
      py "SELECT product_name, brand, final_price, rating "
      ++ py "FROM products " ++ where_ ++ py " " ++ extra ++ py " "
      ++ py "ORDER BY final_price ASC LIMIT 10"
  | Some price, false, true =>
      let extra :=
        match where_ with
        | [] => py "WHERE final_price > " ++ str_of_int price
        | _ => py "AND final_price > " ++ str_of_int price
        end in
      py "SELECT product_name, brand, final_price, rating "
      ++ py "FROM products " ++ where_ ++ py " " ++ extra ++ py " "
      ++ py "ORDER BY final_price DESC LIMIT 10"
  | _, _, _ =>
  if any_in (phrases ["most expensive"; "highest price"]%string) q then
    py "SELECT product_name, brand, final_price FROM products " ++ where_
    ++ py " ORDER BY final_price DESC LIMIT 5"
  else if any_in (phrases ["cheapest"; "lowest price"]%string) q then
    py "SELECT product_name, brand, final_price FROM products " ++ where_
    ++ py " ORDER BY final_price ASC LIMIT 5"
  else if any_in (phrases ["best rated"; "highest rated";
                           "top rated"]%string) q then
    py "SELECT product_name, brand, rating FROM products " ++ where_
    ++ py " ORDER BY rating DESC LIMIT 5"
  else if any_in (phrases ["worst rated"; "lowest rated"]%string) q then
    py "SELECT product_name, brand, rating FROM products " ++ where_
    ++ py " ORDER BY rating ASC LIMIT 5"
  else if any_in (phrases ["best selling"; "most sold"; "top selling";
                           "popular"]%string) q then
    py "SELECT product_name, brand, units_sold FROM products " ++ where_
    ++ py " ORDER BY units_sold DESC LIMIT 5"
  else if any_in (phrases ["highest discount"; "most discount";
                           "best deal"]%string) q then
    py "SELECT product_name, brand, discount_percent, final_price FROM products "
    ++ where_ ++ py " ORDER BY discount_percent DESC LIMIT 5"
  else if any_in (phrases ["list all"; "show all";
                           "all products"]%string) q then
    py "SELECT product_name, brand, final_price, rating FROM products "
    ++ where_ ++ py " LIMIT 20"
  else
    py "SELECT COUNT(*) as total FROM products " ++ where_
  end)
  end.

End TextToSql.

(* ================================================================= *)
(** * Clean-up of the text shown in the chat ([streamlit_app1.py]) *)

Definition lt_sign : N := 60%N.
Definition gt_sign : N := 62%N.

(** The pattern [[^>]+>] read at the head of [s], that is right after a
    [<]: the number of characters it takes, the closing [>] included.
    [inside] tells that a character other than [>] has been read. *)
Fixpoint tag_length (inside : bool) (s : str) : option nat :=
  match s with
  | [] => None
  | c :: s' =>
      if chr_eqb c gt_sign
      then (if inside then Some 1 else None)
      else option_map S (tag_length true s')
  end.

(** [re.sub(r'<[^>]+>', '', s)]: the text is read from left to right; where
    a tag begins its characters are skipped ([skip] counts those still to
    skip) and reading resumes after it; any other character is kept. *)
Fixpoint remove_tags_from (skip : nat) (s : str) : str :=
  match s with
  | [] => []
  | c :: s' =>
      match skip with
      | S skip' => remove_tags_from skip' s'
      | 0 =>
          if chr_eqb c lt_sign
          then match tag_length false s' with
               | Some n => remove_tags_from n s'
               | None => c :: remove_tags_from 0 s'
               end
          else c :: remove_tags_from 0 s'
      end
  end.

Definition remove_tags (s : str) : str := remove_tags_from 0 s.

Section SafeContent.

Context {U : UnicodeData}.

Definition _safe_content (text : str) : str :=
  str_strip (remove_tags text).

End SafeContent.

(** [re.search(r'<[^>]+>', s)] finds something. *)
Fixpoint has_tag (s : str) : bool :=
  match s with
  | [] => false
  | c :: s' =>
      (chr_eqb c lt_sign
       && match tag_length false s' with Some _ => true | None => false end)
      || has_tag s'
  end.

(* ================================================================= *)
(** * Running a statement and wording its result ([text_to_sql.py]) *)

(** What is not in the repository: the floating-point numbers that SQLite
    returns, with what Python makes of them, and [int] of a text. *)
Class Formatting := {
  real : Type;
  (** [f"{x}"] for a float. *)
  real_str : real -> str;
  (** [f"{x:,}"] for a float. *)
  real_grouped : real -> str;
  (** [int(x)] for a float: truncation, or an exception for a number that
      is infinite or not a number. *)
  real_int : real -> result Z;
  (** [int(s)] for a text. *)
  text_int : str -> result Z
}.

(** The decimal writing of an integer, [f"{n}"]. *)
Definition z_str (z : Z) : str :=
  match z with
  | Z0 => str_of_int 0
  | Zpos p => str_of_int (Npos p)
  | Zneg p => 45%N :: str_of_int (Npos p)
  end.

(** Commas between groups of three digits; the digits are given from the
    last to the first and so is the result.  [k] counts the digits of the
    group being written. *)
Fixpoint group_rev (k : nat) (digits : str) : str :=
  match digits with
  | [] => []
  | d :: digits' =>
      match k with
      | 3 => 44%N :: d :: group_rev 1 digits'
      | _ => d :: group_rev (S k) digits'
      end
  end.

Definition grouped (n : N) : str := rev (group_rev 0 (rev (str_of_int n))).

(** [f"{n:,}"] for an integer. *)
Definition z_grouped (z : Z) : str :=
  match z with
  | Z0 => grouped 0
  | Zpos p => grouped (Npos p)
  | Zneg p => 45%N :: grouped (Npos p)
  end.

Section Answers.

Context {F : Formatting}.

(** The values of the columns of a row: SQLite's NULL, integers, floats
    and texts (the table has no column of another type). *)
Inductive value :=
| Null
| Integer (z : Z)
| Real (x : real)
| Text (s : str).

(** A row as a dictionary from column names to values. *)
Definition row := list (str * value).

Fixpoint row_get (key : str) (r : row) : option value :=
  match r with
  | [] => None
  | (k, v) :: r' => if str_eqb key k then Some v else row_get key r'
  end.

(** What the database does with a statement: it returns rows, or an
    exception is raised somewhere between connecting and closing, of which
    [str(e)] is the message. *)
Inductive db_outcome :=
| Rows (rows : list row)
| DbError (message : str).

Definition run_sql (database : str -> db_outcome) (sql : str) : list row :=
  match database sql with
  | Rows rows => rows
  | DbError message => [[(py "error", Text message)]]
  end.

(** [f"{v}"]. *)
Definition plain (v : value) : str :=
  match v with
  | Null => py "None"
  | Integer z => z_str z
  | Real x => real_str x
  | Text s => s
  end.

(** [f"{v:,}"]. *)
Definition with_commas (v : value) : result str :=
  match v with
  | Null => Error TypeError
  | Integer z => Value (z_grouped z)
  | Real x => Value (real_grouped x)
  | Text _ => Error ValueError
  end.

(** [int(v)]. *)
Definition int_of (v : value) : result Z :=
  match v with
  | Null => Error TypeError
  | Integer z => Value z
  | Real x => real_int x
  | Text s => text_int s
  end.

Definition try {A B : Type} (r : result A) (k : A -> result B) : result B :=
  match r with
  | Value a => k a
  | Error e => Error e
  end.

Definition rupee_sign : str := [8377%N].
Definition star : str := [11088%N].
Definition dash : str := [8212%N].

(** The parts of the line of a row, in the order of the tests. *)
Definition line_parts (r : row) : result (list str) :=
  let name :=
    match row_get (py "product_name") r with
    | Some v => [py "**" ++ plain v ++ py "**"]
    | None => []
    end in
  let brand :=
    match row_get (py "brand") r with
    | Some v => [plain v]
    | None => []
    end in
  try (match row_get (py "final_price") r with
       | Some v => try (with_commas v) (fun s => Value [rupee_sign ++ s])
       | None => Value []
       end) (fun price =>
  let rating :=
    match row_get (py "rating") r with
    | Some v => [star ++ py " " ++ plain v]
    | None => []
    end in
  try (match row_get (py "units_sold") r with
       | Some v => try (with_commas v) (fun s => Value [s ++ py " sold"])
       | None => Value []
       end) (fun sold =>
  let discount :=
    match row_get (py "discount_percent") r with
    | Some v => [plain v ++ py "% off"]
    | None => []
    end in
  Value (name ++ brand ++ price ++ rating ++ sold ++ discount))).

(** The loop over [enumerate(results, i)]. *)
Fixpoint answer_lines (i : N) (results : list row) : result (list str) :=
  match results with
  | [] => Value []
  | r :: results' =>
      try (line_parts r) (fun parts =>
      try (answer_lines (i + 1) results') (fun lines =>
      Value ((str_of_int i ++ py ". "
              ++ str_join (py " " ++ dash ++ py " ") parts) :: lines)))
  end.

Definition format_answer (results : list row) (question : str)
  : result str :=
  match results with
  | [] => Value (py "No products found matching your query.")
  | row :: _ =>
      match row_get (py "error") row with
      | Some error => Value (py "Query error: " ++ plain error)
      | None =>
      match row_get (py "total") row with
      | Some total =>
          try (int_of total) (fun n =>
          Value (py "There are **" ++ z_str n
                 ++ py "** products matching your query."))
      | None =>
      match row_get (py "avg_rating") row with
      | Some v =>
          Value (py "The average rating is **" ++ plain v ++ py " / 5**.")
      | None =>
      match row_get (py "avg_price") row with
      | Some v =>
          try (with_commas v) (fun s =>
          Value (py "The average price is **" ++ rupee_sign ++ s ++ py "**."))
      | None =>
      match row_get (py "avg_discount") row with
      | Some v =>
          Value (py "The average discount is **" ++ plain v ++ py "%**.")
      | None =>
      match row_get (py "total_stock") row with
      | Some v =>
          try (int_of v) (fun n =>
          Value (py "Total stock available: **" ++ z_grouped n
                 ++ py " units**."))
      | None =>
      match row_get (py "total_sold") row with
      | Some v =>
          try (int_of v) (fun n =>
          Value (py "Total units sold: **" ++ z_grouped n ++ py "**."))
      | None =>
      match row_get (py "total_revenue") row with
      | Some v =>
          try (with_commas v) (fun s =>
          Value (py "Total revenue generated: **" ++ rupee_sign ++ s
                 ++ py "**."))
      | None =>
          try (answer_lines 1 results) (fun lines =>
          Value (str_join newline lines))
      end end end end end end end end
  end.

End Answers.

(* ================================================================= *)
(** * The first classifier ([streamlit_app.py]) *)

(** The application this one replaced keeps its own [classify_intent],
    which looks for its phrases anywhere in the lowered question. *)
Module Legacy.

Section Classifier.

Context {U : UnicodeData}.

Definition classify_intent (question : str) : str :=
  let q := str_lower question in
  if any_in (phrases ["how many"; "count"; "total number";
                      "number of"]%string) q then py "count"
  else if any_in (phrases ["is there"; "do you have"; "any product";
                           "available"; "exist"]%string) q then py "existence"
  else py "semantic".

End Classifier.

End Legacy.


(** An interpreter with its default limit on the digits of a number; no
    digit outside ASCII has a value in it. *)
Definition default_runtime : PythonRuntime :=
  {| uni_decimal_value := fun _ => 0%N; int_max_str_digits := 4300 |}.

(** A database that holds no floating-point number, and an [int] that takes
    no text for a number. *)
Definition integers_only : Formatting :=
  {| real := Empty_set;
     real_str := fun x => match x with end;
     real_grouped := fun x => match x with end;
     real_int := fun x => match x with end;
     text_int := fun _ => Error ValueError |}.

(** A database that is out of reach. *)
Definition database_down : str -> @db_outcome integers_only :=
  fun _ => @DbError integers_only (py "unable to open database file").


(* ================================================================= *)
(** ** The matcher finds whole words *)

Section MatcherFacts.

Context {U : UnicodeData}.

Lemma chr_eqb_eq (a b : N) : chr_eqb a b = true <-> a = b.
Proof. unfold chr_eqb. apply N.eqb_eq. Qed.

Lemma str_eqb_eq (a b : str) : str_eqb a b = true <-> a = b.
Proof.
  revert b. induction a as [|x a IH]; intros [|y b]; simpl;
    try (split; [discriminate | discriminate]); try tauto.
  rewrite andb_true_iff, chr_eqb_eq, IH.
  split; [intros [-> ->]; reflexivity | intros H; inversion H; auto].
Qed.

Lemma str_eqb_refl (a : str) : str_eqb a a = true.
Proof. apply str_eqb_eq. reflexivity. Qed.

Lemma last_from_app (prev : option N) (s1 s2 : str) :
  last_from prev (s1 ++ s2) = last_from (last_from prev s1) s2.
Proof. revert prev. induction s1; intros; simpl; auto. Qed.

Lemma search_from_iff (ic : bool) (p : pattern) (prev : option N) (s : str) :
  search_from ic p prev s = true <->
  exists s1 s2, s = s1 ++ s2 /\ match_here ic p (last_from prev s1) s2 = true.
Proof.
  revert prev. induction s as [|c s IH]; intros prev; simpl.
  - rewrite orb_false_r. split.
    + intros H. exists [], []. auto.
    + intros (s1 & s2 & E & H).
      symmetry in E. apply app_eq_nil in E. destruct E; subst. exact H.
  - rewrite orb_true_iff, IH. split.
    + intros [H | (s1 & s2 & -> & H)].
      * exists [], (c :: s). auto.
      * exists (c :: s1), s2. auto.
    + intros (s1 & s2 & E & H). destruct s1 as [|c' s1]; simpl in *.
      * subst s2. left. exact H.
      * inversion E; subst. right. exists s1, s2. auto.
Qed.

Lemma read_literal_exact (l : str) (prev : option N) (s : str)
    (prev' : option N) (s' : str) :
  read_literal false l prev s = Some (prev', s') <->
  s = l ++ s' /\ prev' = last_from prev l.
Proof.
  revert prev s. induction l as [|p l IH]; intros prev s; simpl.
  - split; [intros H; inversion H; auto | intros [-> ->]; reflexivity].
  - destruct s as [|c s]; [split; [discriminate | intros [H _]; discriminate]|].
    unfold chr_match. simpl. rewrite orb_false_r.
    destruct (chr_eqb p c) eqn:E.
    + apply chr_eqb_eq in E. subst c. rewrite IH.
      split; [intros [-> ->]; auto | intros [H ->]; inversion H; auto].
    + split; [discriminate|]. intros [H _]. inversion H; subst.
      unfold chr_eqb in E. rewrite N.eqb_refl in E. discriminate.
Qed.

(** The matcher, without the machinery of the pattern: the keyword stands
    somewhere in the text with a word boundary at each of its ends. *)
Lemma contains_keyword_iff (text keyword : str) :
  _contains_keyword text keyword = true <->
  exists before after,
    text = before ++ keyword ++ after
    /\ at_boundary (last_chr before) (keyword ++ after) = true
    /\ at_boundary (last_chr (before ++ keyword)) after = true.
Proof.
  unfold _contains_keyword, re_search, re_escape. rewrite search_from_iff.
  split.
  - intros (s1 & s2 & -> & H). simpl in H.
    apply andb_true_iff in H. destruct H as [B1 H].
    destruct (read_literal false keyword (last_from None s1) s2)
      as [[prev' s']|] eqn:R; [|discriminate].
    apply read_literal_exact in R. destruct R as [-> ->].
    rewrite andb_true_r in H.
    exists s1, s'. unfold last_chr. rewrite last_from_app. auto.
  - intros (before & after & -> & B1 & B2).
    exists before, (keyword ++ after). split; [reflexivity|]. simpl.
    unfold last_chr in *. rewrite B1. simpl.
    rewrite (proj2 (read_literal_exact keyword (last_from None before)
                      (keyword ++ after) _ after) (conj eq_refl eq_refl)).
    rewrite last_from_app in B2. rewrite B2. reflexivity.
Qed.

Lemma word_at_app (s t : str) :
  word_at (s ++ t) = match s with [] => word_at t | _ => word_at s end.
Proof. destruct s; reflexivity. Qed.

Lemma word_before_last_app (prev : option N) (s t : str) :
  word_before (last_from prev (s ++ t))
  = match t with
    | [] => word_before (last_from prev s)
    | _ => word_before (last_from None t)
    end.
Proof.
  rewrite last_from_app. destruct t as [|c t]; reflexivity.
Qed.

Lemma word_delimited_ends (phrase : str) :
  word_delimited phrase = true ->
  word_at phrase = true /\ word_before (last_chr phrase) = true
  /\ phrase <> [].
Proof.
  unfold word_delimited. rewrite andb_true_iff. intros [H1 H2].
  repeat split; auto. intros ->. discriminate.
Qed.

(** For a phrase that begins and ends with a word character the two
    boundaries say that no word character touches the occurrence. *)
Lemma contains_keyword_whole_word (text phrase : str) :
  word_delimited phrase = true ->
  (_contains_keyword text phrase = true <-> occurs_as_whole_word phrase text).
Proof.
  intros W. destruct (word_delimited_ends _ W) as (Wa & Wb & Ne).
  rewrite contains_keyword_iff. unfold occurs_as_whole_word, at_boundary.
  split; intros (before & after & E & B1 & B2); exists before, after;
    (split; [exact E|]).
  - rewrite word_at_app in B1. unfold last_chr in *.
    rewrite word_before_last_app in B2.
    destruct phrase as [|a phrase]; [congruence|].
    rewrite Wa in B1. rewrite Wb in B2.
    split.
    + destruct (word_before (last_from None before)); [discriminate | auto].
    + destruct (word_at after); [discriminate | auto].
  - rewrite word_at_app. unfold last_chr in *.
    rewrite word_before_last_app.
    destruct phrase as [|a phrase]; [congruence|].
    rewrite Wa, Wb, B1, B2. auto.
Qed.

End MatcherFacts.

(* ================================================================= *)
(** ** Lowering and trimming the question *)

Section NormalisationFacts.

Context {U : UnicodeData}.

Lemma ascii_code_listed (c : N) : is_ascii c = true -> In c ascii_codes.
Proof.
  unfold is_ascii, ascii_codes. intros H. apply N.ltb_lt in H.
  apply in_map_iff. exists (N.to_nat c). split; [apply N2Nat.id|].
  apply in_seq. lia.
Qed.

(** A property of characters that holds of the 128 ASCII codes by
    inspection holds of every ASCII character. *)
Lemma ascii_by_cases (P : N -> bool) :
  forallb P ascii_codes = true -> forall c, is_ascii c = true -> P c = true.
Proof.
  intros H c Hc. rewrite forallb_forall in H. apply H.
  apply ascii_code_listed. exact Hc.
Qed.


Lemma ascii_lower_keeps (c : N) :
  is_ascii c = true ->
  is_ascii (ascii_lower c) = true
  /\ is_word (ascii_lower c) = is_word c.
Proof.
  intros Hc.
  assert (H := ascii_by_cases
                 (fun c => is_ascii (ascii_lower c)
                           && Bool.eqb (is_word (ascii_lower c)) (is_word c))
                 eq_refl c Hc).
  simpl in H. apply andb_true_iff in H. destruct H as [H1 H2].
  apply Bool.eqb_prop in H2. auto.
Qed.



Lemma drop_space_split (s : str) :
  exists l, s = l ++ drop_space s /\ forallb is_space l = true.
Proof.
  induction s as [|c s (l & E & Hl)]; simpl.
  - exists []. auto.
  - destruct (is_space c) eqn:Hc.
    + exists (c :: l). simpl. rewrite Hc, Hl. split; [congruence | reflexivity].
    + exists []. auto.
Qed.


Lemma forallb_rev (P : N -> bool) (l : str) :
  forallb P (rev l) = forallb P l.
Proof.
  destruct (forallb P l) eqn:E.
  - rewrite forallb_forall in *. intros x Hx. apply E, in_rev, Hx.
  - destruct (forallb P (rev l)) eqn:E'; [|reflexivity].
    rewrite <- E. symmetry. rewrite forallb_forall in *.
    intros x Hx. apply E'. rewrite <- in_rev. exact Hx.
Qed.

Lemma str_strip_split (s : str) :
  exists l r, s = l ++ str_strip s ++ r
              /\ forallb is_space l = true /\ forallb is_space r = true.
Proof.
  unfold str_strip.
  destruct (drop_space_split s) as (l & E & Hl).
  destruct (drop_space_split (rev (drop_space s))) as (l2 & E2 & Hl2).
  exists l, (rev l2). rewrite forallb_rev. repeat split; auto.
  rewrite <- rev_app_distr, <- E2, rev_involutive. exact E.
Qed.

Lemma last_from_snoc (prev : option N) (s : str) (c : N) :
  last_from prev (s ++ [c]) = Some c.
Proof. rewrite last_from_app. reflexivity. Qed.

Lemma last_chr_cases (s : str) :
  (s = [] /\ last_chr s = None)
  \/ exists init z, s = init ++ [z] /\ last_chr s = Some z.
Proof.
  destruct (rev s) as [|z r] eqn:E.
  - left. apply (f_equal (@rev N)) in E. rewrite rev_involutive in E.
    subst. auto.
  - right. exists (rev r), z.
    apply (f_equal (@rev N)) in E. rewrite rev_involutive in E. simpl in E.
    split; [exact E|]. subst s. apply last_from_snoc.
Qed.






Lemma word_at_lower (s : str) :
  forallb is_ascii s = true -> word_at (map ascii_lower s) = word_at s.
Proof.
  destruct s as [|c s]; [reflexivity|]. simpl. intros H.
  apply andb_true_iff in H. apply ascii_lower_keeps. tauto.
Qed.




End NormalisationFacts.

(* ================================================================= *)
(** ** The scores grow with the text *)

Section ScorerFacts.

Context {U : UnicodeData}.

Lemma word_at_app_blank (s rest : str) (sep : N) :
  is_word sep = false -> word_at (s ++ sep :: rest) = word_at s.
Proof. intros H. destruct s; simpl; auto. Qed.

(** What a text matches, it still matches once a non-word character and
    anything else are appended to it. *)
Lemma contains_keyword_append (text keyword rest : str) (sep : N) :
  is_word sep = false ->
  _contains_keyword text keyword = true ->
  _contains_keyword (text ++ sep :: rest) keyword = true.
Proof.
  intros Hsep. rewrite !contains_keyword_iff.
  intros (before & after & -> & B1 & B2).
  exists before, (after ++ sep :: rest). split.
  - repeat rewrite <- app_assoc. reflexivity.
  - unfold at_boundary in *. rewrite app_assoc.
    rewrite !word_at_app_blank by exact Hsep. auto.
Qed.

(** A phrase appended after a non-word character matches. *)
Lemma contains_keyword_appended (text phrase : str) (sep : N) :
  is_word sep = false -> word_delimited phrase = true ->
  _contains_keyword (text ++ sep :: phrase) phrase = true.
Proof.
  intros Hsep W. apply contains_keyword_whole_word; [exact W|].
  exists (text ++ [sep]), []. repeat split.
  - rewrite app_nil_r, <- app_assoc. reflexivity.
  - unfold last_chr. rewrite last_from_snoc. exact Hsep.
Qed.

Lemma count_matching_cons (q kw : str) (keywords : list str) :
  count_matching q (kw :: keywords)
  = (if _contains_keyword q kw then 1 else 0) + count_matching q keywords.
Proof.
  unfold count_matching. simpl. destruct (_contains_keyword q kw); reflexivity.
Qed.

Lemma count_matching_mono (q q' : str) (keywords : list str) :
  (forall kw, In kw keywords ->
     _contains_keyword q kw = true -> _contains_keyword q' kw = true) ->
  count_matching q keywords <= count_matching q' keywords.
Proof.
  induction keywords as [|kw keywords IH]; intros H; [apply Nat.le_refl|].
  rewrite !count_matching_cons.
  assert (IH' := IH (fun k Hk => H k (or_intror Hk))).
  assert (Hkw := H kw (or_introl eq_refl)).
  destruct (_contains_keyword q kw); [rewrite Hkw by reflexivity|];
    destruct (_contains_keyword q' kw); lia.
Qed.

Lemma count_matching_gains (q q' phrase : str) (keywords : list str) :
  (forall kw, In kw keywords ->
     _contains_keyword q kw = true -> _contains_keyword q' kw = true) ->
  In phrase keywords ->
  _contains_keyword q phrase = false -> _contains_keyword q' phrase = true ->
  count_matching q keywords < count_matching q' keywords.
Proof.
  induction keywords as [|kw keywords IH]; intros H Hin Hq Hq'; [destruct Hin|].
  rewrite !count_matching_cons.
  assert (Hrest := fun k Hk => H k (or_intror Hk)).
  destruct Hin as [->|Hin].
  - rewrite Hq, Hq'. assert (M := count_matching_mono q q' keywords Hrest). lia.
  - assert (IH' := IH Hrest Hin Hq Hq').
    assert (Hkw := H kw (or_introl eq_refl)).
    destruct (_contains_keyword q kw); [rewrite Hkw by reflexivity|];
      destruct (_contains_keyword q' kw); lia.
Qed.

Lemma phrases_word_delimited :
  forallb word_delimited
    (DEFINITE_SQL ++ DEFINITE_SEMANTIC ++ OVERRIDE_SQL_KEYWORDS) = true.
Proof. vm_compute. reflexivity. Qed.

Lemma structured_phrase_word_delimited (phrase : str) :
  In phrase DEFINITE_SQL -> word_delimited phrase = true.
Proof.
  intros H. assert (P := phrases_word_delimited).
  rewrite forallb_forall in P. apply P, in_or_app. left. exact H.
Qed.

End ScorerFacts.

(* ================================================================= *)
(** ** The decision procedure and the fallback *)

(** Reads the fields of a state that is written out. *)
Ltac fields := cbn [llm_cache log stdout llm_calls fst snd].

(** Runs the telemetry calls of a branch. *)
Ltac run_log :=
  unfold bind, _log_ambiguous, _log_decision, emit, print_line, ret; fields.

Section ClassifierFacts.

Context {U : UnicodeData}.


Lemma sql_is_label : is_label (py "sql").
Proof. left. reflexivity. Qed.

Lemma semantic_is_label : is_label (py "semantic").
Proof. right. reflexivity. Qed.

Lemma key_eqb_eq (a b : cache_key) : key_eqb a b = true <-> a = b.
Proof.
  destruct a as [qa ia], b as [qb ib]. unfold key_eqb. simpl.
  rewrite andb_true_iff, str_eqb_eq, Nat.eqb_eq.
  split; [intros [-> ->]; reflexivity | intros H; inversion H; auto].
Qed.

Lemma key_eqb_refl (a : cache_key) : key_eqb a a = true.
Proof. apply key_eqb_eq. reflexivity. Qed.



Lemma removelast_in (c : list (cache_key * str)) (e : cache_key * str) :
  In e (removelast c) -> In e c.
Proof.
  induction c as [|x c IH]; simpl; [tauto|].
  destruct c; simpl in *; tauto.
Qed.

(** A hit: the stored result, no call, the entry made the most recent. *)
Lemma llm_classify_hit (question : str) (model : ChatModel) (w : World)
    (result : str) :
  cache_find (question, model_id model) (llm_cache w) = Some result ->
  _llm_classify question model w
  = (Returns result,
     {| log := log w; stdout := stdout w;
        llm_cache := ((question, model_id model), result)
                     :: cache_remove (question, model_id model) (llm_cache w);
        llm_calls := llm_calls w |}).
Proof.
  intros H. unfold _llm_classify, lru_cache, bind, get_cache. simpl.
  rewrite H. reflexivity.
Qed.

(** A miss on which the model raises: the call is made, the exception
    leaves the function and nothing is stored. *)
Lemma llm_classify_miss_fails (question : str) (model : ChatModel)
    (w : World) (e : exn) :
  cache_find (question, model_id model) (llm_cache w) = None ->
  invoke model (llm_calls w) (messages_for question) = Fails e ->
  _llm_classify question model w
  = (Raises e,
     {| log := log w; stdout := stdout w; llm_cache := llm_cache w;
        llm_calls := (model_id model, messages_for question)
                     :: llm_calls w |}).
Proof.
  intros H F. unfold _llm_classify, lru_cache, bind, get_cache. simpl.
  rewrite H. unfold _llm_classify_wrapped, bind, model_invoke.
  unfold messages_for in F. rewrite F. reflexivity.
Qed.

(** A miss on which the model answers: the call is made; a reply without
    a first word raises [IndexError] and stores nothing, any other reply
    is mapped to a label, which is stored. *)
Lemma llm_classify_miss_replies (question : str) (model : ChatModel)
    (w : World) (content : str) :
  cache_find (question, model_id model) (llm_cache w) = None ->
  invoke model (llm_calls w) (messages_for question) = Replies content ->
  _llm_classify question model w
  = match first_token content with
    | None =>
        (Raises IndexError,
         {| log := log w; stdout := stdout w; llm_cache := llm_cache w;
            llm_calls := (model_id model, messages_for question)
                         :: llm_calls w |})
    | Some intent =>
        let result :=
          if str_in (py "sql") intent then py "sql" else py "semantic" in
        (Returns result,
         {| log := log w; stdout := stdout w;
            llm_cache :=
              if Nat.leb 256 (List.length (llm_cache w))
              then ((question, model_id model), result)
                   :: removelast (llm_cache w)
              else ((question, model_id model), result) :: llm_cache w;
            llm_calls := (model_id model, messages_for question)
                         :: llm_calls w |})
    end.
Proof.
  intros H F. unfold _llm_classify, lru_cache, bind, get_cache. fields.
  rewrite H. unfold _llm_classify_wrapped, bind, model_invoke.
  unfold messages_for in F. rewrite F. unfold first_token.
  destruct (str_split (str_lower (str_strip content))) as [|intent rest].
  - reflexivity.
  - unfold ret, put_cache. fields. rewrite H.
    destruct (Nat.leb 256 (List.length (llm_cache w))); reflexivity.
Qed.

(** Away from a tie the classifier returns what the debug helper reports,
    whatever the model, and logs one decision with the helper's method. *)
Lemma classify_intent_decided (question : str) (model : option ChatModel)
    (w : World) :
  ~ ambiguous question ->
  is_label (d_intent (get_classification_details question))
  /\ is_decided_method (d_method (get_classification_details question))
  /\ exists s m,
       classify_intent question model w
       = (Returns (d_intent (get_classification_details question)),
          {| log := Decision question
                      (d_intent (get_classification_details question))
                      (d_method (get_classification_details question)) s m
                    :: log w;
             stdout := stdout w; llm_cache := llm_cache w;
             llm_calls := llm_calls w |}).
Proof.
  unfold ambiguous, get_classification_details, classify_intent.
  generalize (str_strip (str_lower question)). intros q.
  destruct (_compute_scores q) as [s m].
  destruct (_is_product_name_query q && negb (_has_override_sql q)).
  - intros _. cbn [d_intent d_method]. run_log.
    split; [apply semantic_is_label|].
    split; [left; reflexivity | exists 0, 0; reflexivity].
  - destruct (Nat.ltb_spec m s), (Nat.ltb_spec s m), (Nat.ltb_spec 0 s),
      (Nat.ltb_spec 0 m), (Nat.eqb_spec m 0), (Nat.eqb_spec s 0);
      try lia; cbn [d_intent d_method andb]; run_log; intros Hd;
      try (exfalso; apply Hd; reflexivity);
      (split; [first [apply sql_is_label | apply semantic_is_label]|]);
      (split; [first [right; left; reflexivity | right; right; reflexivity]
              | exists s, m; reflexivity]).
Qed.

(** The state after the warning of an ambiguous question. *)
Lemma log_ambiguous_runs (question : str) (s m : nat) (w : World) :
  _log_ambiguous question s m w
  = (Returns tt,
     {| log := Ambiguous question s m :: log w;
        stdout := ambiguous_line question :: stdout w;
        llm_cache := llm_cache w; llm_calls := llm_calls w |}).
Proof. reflexivity. Qed.

(** At a tie the classifier warns and then asks the model, if it has one,
    or falls back to the default. *)
Lemma classify_intent_tied (question : str) (model : option ChatModel)
    (w : World) :
  ambiguous question ->
  exists s,
    _compute_scores (str_strip (str_lower question)) = (s, s)
    /\ classify_intent question model w
       = (_log_ambiguous question s s ;;
          match model with
          | Some model =>
              intent <- _llm_classify question model ;;
              _log_decision question intent (py "llm_fallback") s s ;;
              ret intent
          | None =>
              _log_decision question (py "semantic") (py "default_fallback")
                s s ;;
              ret (py "semantic")
          end) w.
Proof.
  unfold ambiguous, get_classification_details, classify_intent.
  generalize (str_strip (str_lower question)). intros q.
  destruct (_compute_scores q) as [s m].
  destruct (_is_product_name_query q && negb (_has_override_sql q)).
  - cbn [d_intent]. intros Hd. vm_compute in Hd. discriminate.
  - destruct (Nat.ltb_spec m s), (Nat.ltb_spec s m), (Nat.ltb_spec 0 s),
      (Nat.ltb_spec 0 m), (Nat.eqb_spec m 0), (Nat.eqb_spec s 0);
      try lia; cbn [d_intent andb]; intros Hd;
      try (vm_compute in Hd; discriminate);
      assert (s = m) as -> by lia; exists m; split; reflexivity.
Qed.

Lemma llm_classify_stores (question : str) (model : ChatModel)
    (w w' : World) (result : str) :
  _llm_classify question model w = (Returns result, w') ->
  cache_find (question, model_id model) (llm_cache w') = Some result.
Proof.
  destruct (cache_find (question, model_id model) (llm_cache w))
    as [v|] eqn:F.
  - rewrite (llm_classify_hit _ _ _ _ F). intros [= <- <-].
    fields. cbn [cache_find]. rewrite key_eqb_refl. reflexivity.
  - destruct (invoke model (llm_calls w) (messages_for question))
      as [e|content] eqn:I.
    + rewrite (llm_classify_miss_fails _ _ _ _ F I). discriminate.
    + rewrite (llm_classify_miss_replies _ _ _ _ F I).
      destruct (first_token content); [|discriminate].
      cbv zeta. destruct (Nat.leb 256 (List.length (llm_cache w)));
        intros [= <- <-]; fields; cbn [cache_find];
        rewrite key_eqb_refl; reflexivity.
Qed.

Lemma llm_classify_calls (question : str) (model : ChatModel) (w : World) :
  llm_calls (snd (_llm_classify question model w))
  = match cache_find (question, model_id model) (llm_cache w) with
    | Some _ => llm_calls w
    | None => (model_id model, messages_for question) :: llm_calls w
    end.
Proof.
  destruct (cache_find (question, model_id model) (llm_cache w))
    as [v|] eqn:F.
  - rewrite (llm_classify_hit _ _ _ _ F). reflexivity.
  - destruct (invoke model (llm_calls w) (messages_for question))
      as [e|content] eqn:I.
    + rewrite (llm_classify_miss_fails _ _ _ _ F I). reflexivity.
    + rewrite (llm_classify_miss_replies _ _ _ _ F I).
      destruct (first_token content); reflexivity.
Qed.


End ClassifierFacts.

(* ================================================================= *)
(** ** Properties of the classifier *)

Section Properties.

Context {U : UnicodeData}.

Lemma ambiguous_dec (question : str) :
  {ambiguous question} + {~ ambiguous question}.
Proof. unfold ambiguous. apply (list_eq_dec N.eq_dec). Qed.

(** At a tie with a model, the outcome is that of the memoised fallback
    run after the warning; a returned label is logged as [llm_fallback]. *)
Lemma classify_intent_escalates (question : str) (model : ChatModel)
    (w : World) :
  ambiguous question ->
  exists s,
    _compute_scores (str_strip (str_lower question)) = (s, s)
    /\ classify_intent question (Some model) w
       = match _llm_classify question model (warned question s w) with
         | (Returns intent, w') =>
             (Returns intent,
              decided question intent (py "llm_fallback") s s w')
         | (Raises e, w') => (Raises e, w')
         end.
Proof.
  intros A. destruct (classify_intent_tied question (Some model) w A)
    as (s & Hs & ->).
  exists s. split; [exact Hs|].
  unfold bind at 1. rewrite log_ambiguous_runs. fold (warned question s w).
  unfold bind at 1.
  destruct (_llm_classify question model (warned question s w))
    as [[intent|e] w']; reflexivity.
Qed.

Lemma classify_intent_defaults (question : str) (w : World) :
  ambiguous question ->
  exists s,
    _compute_scores (str_strip (str_lower question)) = (s, s)
    /\ classify_intent question None w
       = (Returns (py "semantic"),
          decided question (py "semantic") (py "default_fallback") s s
            (warned question s w)).
Proof.
  intros A. destruct (classify_intent_tied question None w A)
    as (s & Hs & ->).
  exists s. split; [exact Hs | reflexivity].
Qed.


(** C2, as the code has it.  When the model raises on an ambiguous
    question that is not memoised, [classify_intent] does not catch the
    exception: it leaves the function, after the warning of the ambiguous
    question has been written and the call made; no decision is logged (in
    particular none by [default_fallback]) and nothing is memoised. *)
Theorem classify_intent_lets_model_failure_out (question : str)
    (model : ChatModel) (w : World) (e : exn) :
  ambiguous question ->
  cache_find (question, model_id model) (llm_cache w) = None ->
  invoke model (llm_calls w) (messages_for question) = Fails e ->
  exists s,
    classify_intent question (Some model) w
    = (Raises e,
       {| log := Ambiguous question s s :: log w;
          stdout := ambiguous_line question :: stdout w;
          llm_cache := llm_cache w;
          llm_calls := (model_id model, messages_for question)
                       :: llm_calls w |}).
Proof.
  intros A F I.
  destruct (classify_intent_escalates question model w A) as (s & _ & ->).
  exists s.
  rewrite (llm_classify_miss_fails question model (warned question s w) e F I).
  reflexivity.
Qed.

(** C3.  On a miss, [_llm_classify] reads the first word of the lowered
    reply: it returns ['sql'] when that word contains [sql] and
    ['semantic'] otherwise.  A reply without a first word (empty, or only
    blanks) makes it raise [IndexError], which also leaves
    [classify_intent]. *)
Theorem llm_classify_reads_first_word :
  (forall question model w content,
     cache_find (question, model_id model) (llm_cache w) = None ->
     invoke model (llm_calls w) (messages_for question) = Replies content ->
     fst (_llm_classify question model w)
     = match first_token content with
       | Some intent =>
           Returns (if str_in (py "sql") intent
                    then py "sql" else py "semantic")
       | None => Raises IndexError
       end)
  /\ first_token (py "") = None
  /\ first_token (py "   ") = None
  /\ (forall question model w content,
        ambiguous question ->
        cache_find (question, model_id model) (llm_cache w) = None ->
        invoke model (llm_calls w) (messages_for question) = Replies content ->
        first_token content = None ->
        fst (classify_intent question (Some model) w) = Raises IndexError).
Proof.
  split; [|split; [reflexivity|split; [reflexivity|]]].
  - intros question model w content F I.
    rewrite (llm_classify_miss_replies question model w content F I).
    destruct (first_token content); reflexivity.
  - intros question model w content A F I T.
    destruct (classify_intent_escalates question model w A) as (s & _ & ->).
    rewrite (llm_classify_miss_replies question model (warned question s w)
               content F I), T.
    reflexivity.
Qed.


(** C9, as the code has it.  When a call of [classify_intent] with a model
    on an ambiguous question returns a label, the same call made again
    returns the same label from the table without calling the model: the
    two calls together call the model at most once. *)
Theorem repeated_question_is_served_from_cache (question : str)
    (model : ChatModel) (w w1 : World) (label : str) :
  ambiguous question ->
  classify_intent question (Some model) w = (Returns label, w1) ->
  exists w2,
    classify_intent question (Some model) w1 = (Returns label, w2)
    /\ llm_calls w2 = llm_calls w1
    /\ List.length (llm_calls w2) <= S (List.length (llm_calls w)).
Proof.
  intros A R.
  destruct (classify_intent_escalates question model w A) as (s & Hs & E).
  rewrite E in R.
  destruct (_llm_classify question model (warned question s w))
    as [[intent|e] w'] eqn:R1; [|discriminate].
  injection R as <- <-.
  assert (F := llm_classify_stores question model _ _ _ R1).
  assert (C := llm_classify_calls question model (warned question s w)).
  rewrite R1 in C. cbn [snd] in C.
  destruct (classify_intent_escalates question model
              (decided question intent (py "llm_fallback") s s w') A)
    as (s' & Hs' & E2).
  rewrite Hs in Hs'. injection Hs' as <-.
  rewrite E2.
  rewrite (llm_classify_hit question model
             (warned question s
                (decided question intent (py "llm_fallback") s s w'))
             intent F).
  eexists. split; [reflexivity|]. split; [reflexivity|].
  unfold decided, warned in *. cbn [llm_calls llm_cache] in *.
  rewrite C.
  destruct (cache_find (question, model_id model) (llm_cache w));
    cbn [List.length]; lia.
Qed.

(** C10.  Whenever the debug helper reports an intent other than
    ['ambiguous'], [classify_intent] returns that intent (with no model,
    and with any model as well) and logs one decision whose method is the
    one the helper reports, one of [product_name_pattern], [keyword_only]
    and [confidence_winner]. *)
Theorem classify_intent_agrees_with_details (question : str)
    (model : option ChatModel) (w : World) :
  d_intent (get_classification_details question) <> py "ambiguous" ->
  is_label (d_intent (get_classification_details question))
  /\ is_decided_method (d_method (get_classification_details question))
  /\ exists s m,
       classify_intent question model w
       = (Returns (d_intent (get_classification_details question)),
          decided question
            (d_intent (get_classification_details question))
            (d_method (get_classification_details question)) s m w).
Proof. intros A. exact (classify_intent_decided question model w A). Qed.

(** C5, as the code has it.  Appending a blank and a structured phrase to
    a question makes the phrase match, never lowers the structured score,
    raises it when the phrase did not match before, and never lowers the
    semantic score, which may rise. *)
Theorem appended_phrase_never_lowers_scores (text phrase : str) :
  In phrase DEFINITE_SQL ->
  _contains_keyword (text ++ py " " ++ phrase) phrase = true
  /\ fst (_compute_scores text)
     <= fst (_compute_scores (text ++ py " " ++ phrase))
  /\ (_contains_keyword text phrase = false ->
      fst (_compute_scores text)
      < fst (_compute_scores (text ++ py " " ++ phrase)))
  /\ snd (_compute_scores text)
     <= snd (_compute_scores (text ++ py " " ++ phrase)).
Proof.
  intros Hin.
  assert (W := structured_phrase_word_delimited phrase Hin).
  change (text ++ py " " ++ phrase) with (text ++ 32%N :: phrase).
  assert (B : is_word 32 = false) by reflexivity.
  assert (M := contains_keyword_appended text phrase 32%N B W).
  assert (K : forall keywords kw, In kw keywords ->
            _contains_keyword text kw = true ->
            _contains_keyword (text ++ 32%N :: phrase) kw = true).
  { intros keywords kw _. apply contains_keyword_append. exact B. }
  unfold _compute_scores. cbn [fst snd].
  split; [exact M|]. split; [|split].
  - apply count_matching_mono. apply K.
  - intros N.
    exact (count_matching_gains text _ phrase DEFINITE_SQL (K DEFINITE_SQL)
             Hin N M).
  - apply count_matching_mono. apply K.
Qed.


(** C7, as the code has it.  For ["how many adidas models"] no
    product-name pattern matches (the whole word [model] does not occur in
    [models], and there is no number), the override phrase ["how many"] is
    present, the scores are 1 and 0, and [classify_intent] returns ['sql']
    and logs it with the method [keyword_only]. *)
Theorem how_many_adidas_models_is_keyword_only (model : option ChatModel)
    (w : World) :
  _is_product_name_query
    (str_strip (str_lower (py "how many adidas models"))) = false
  /\ _has_override_sql
       (str_strip (str_lower (py "how many adidas models"))) = true
  /\ _compute_scores
       (str_strip (str_lower (py "how many adidas models"))) = (1, 0)
  /\ classify_intent (py "how many adidas models") model w
     = (Returns (py "sql"),
        decided (py "how many adidas models") (py "sql") (py "keyword_only")
          1 0 w).
Proof. repeat split; vm_compute; reflexivity. Qed.

(** C8.  For ["popular color options"] no product-name pattern matches,
    the phrase ["popular"] matches, the structured score is 1 and the
    semantic score 0, and [classify_intent] returns ['sql'] and logs it
    with the method [keyword_only]. *)
Theorem popular_color_options_is_structured (model : option ChatModel)
    (w : World) :
  _is_product_name_query
    (str_strip (str_lower (py "popular color options"))) = false
  /\ _contains_keyword
       (str_strip (str_lower (py "popular color options"))) (py "popular")
     = true
  /\ _compute_scores
       (str_strip (str_lower (py "popular color options"))) = (1, 0)
  /\ classify_intent (py "popular color options") model w
     = (Returns (py "sql"),
        decided (py "popular color options") (py "sql") (py "keyword_only")
          1 0 w).
Proof. repeat split; vm_compute; reflexivity. Qed.

End Properties.

(* ================================================================= *)
(** ** Runs on concrete questions *)

Section Runs.

#[local] Existing Instance ascii_tables.

Lemma listed (phrase : str) (keywords : list str) :
  existsb (str_eqb phrase) keywords = true -> In phrase keywords.
Proof.
  intros H. apply existsb_exists in H. destruct H as (k & Hk & E).
  apply str_eqb_eq in E. subst k. exact Hk.
Qed.


(** The model is down when [xyz] is asked: the caller of
    [classify_intent] gets the exception, not ['semantic'], and only the
    warning is logged. *)
Lemma model_failure_reaches_the_caller :
  ambiguous (py "xyz")
  /\ invoke (model_down 1) (llm_calls fresh) (messages_for (py "xyz"))
     = Fails (ExternalError 503)
  /\ fst (classify_intent (py "xyz") (Some (model_down 1)) fresh)
     = Raises (ExternalError 503)
  /\ fst (classify_intent (py "xyz") (Some (model_down 1)) fresh)
     <> Returns (py "semantic")
  /\ log (snd (classify_intent (py "xyz") (Some (model_down 1)) fresh))
     = [Ambiguous (py "xyz") 0 0].
Proof.
  split; [vm_compute; reflexivity|]. split; [reflexivity|].
  split; [vm_compute; reflexivity|].
  split; [vm_compute; discriminate | vm_compute; reflexivity].
Defined.

Lemma classify_intent_lets_model_failure_out_run :
  exists s,
    classify_intent (py "xyz") (Some (model_down 1)) fresh
    = (Raises (ExternalError 503),
       {| log := Ambiguous (py "xyz") s s :: log fresh;
          stdout := ambiguous_line (py "xyz") :: stdout fresh;
          llm_cache := llm_cache fresh;
          llm_calls := (model_id (model_down 1), messages_for (py "xyz"))
                       :: llm_calls fresh |}).
Proof.
  apply classify_intent_lets_model_failure_out.
  - vm_compute. reflexivity.
  - reflexivity.
  - reflexivity.
Defined.

(** The model answers [xyz] with blanks only. *)
Lemma blank_reply_raises_index_error :
  fst (classify_intent (py "xyz") (Some (model_saying 1 (py "   "))) fresh)
  = Raises IndexError.
Proof.
  apply (proj2 (proj2 (proj2 llm_classify_reads_first_word))
           (py "xyz") (model_saying 1 (py "   ")) fresh (py "   ")).
  - vm_compute. reflexivity.
  - reflexivity.
  - reflexivity.
  - reflexivity.
Defined.



(** ["in stock"] is appended to ["available"]: one more structured phrase
    matches and no other, and the semantic score goes from 0 to 1, because
    ["available in"] matches as well. *)
Lemma semantic_score_rises_with_in_stock :
  adds_structured_phrase (py "in stock") (py "available")
    (py "available in stock")
  /\ _compute_scores (py "available") = (0, 0)
  /\ _compute_scores (py "available in stock") = (1, 1)
  /\ ~ scores_monotone_under_additions.
Proof.
  assert (A : adds_structured_phrase (py "in stock") (py "available")
                (py "available in stock")).
  { split; [apply listed; vm_compute; reflexivity|].
    split; [exists (py " in stock"); reflexivity|].
    split; [vm_compute; reflexivity|]. split; [vm_compute; reflexivity|].
    intros other Hin Hne.
    assert (F : forallb
                  (fun other =>
                     str_eqb other (py "in stock")
                     || Bool.eqb
                          (_contains_keyword (py "available in stock") other)
                          (_contains_keyword (py "available") other))
                  DEFINITE_SQL = true) by (vm_compute; reflexivity).
    rewrite forallb_forall in F. specialize (F other Hin).
    apply orb_true_iff in F. destruct F as [F|F].
    - apply str_eqb_eq in F. contradiction.
    - apply Bool.eqb_prop in F. exact F. }
  split; [exact A|]. split; [vm_compute; reflexivity|].
  split; [vm_compute; reflexivity|].
  intros M. destruct (M _ _ _ A) as [_ E]. vm_compute in E. discriminate.
Defined.

Lemma appended_phrase_never_lowers_scores_run :
  _contains_keyword (py "available" ++ py " " ++ py "in stock")
    (py "in stock") = true
  /\ fst (_compute_scores (py "available"))
     <= fst (_compute_scores (py "available" ++ py " " ++ py "in stock"))
  /\ (_contains_keyword (py "available") (py "in stock") = false ->
      fst (_compute_scores (py "available"))
      < fst (_compute_scores (py "available" ++ py " " ++ py "in stock")))
  /\ snd (_compute_scores (py "available"))
     <= snd (_compute_scores (py "available" ++ py " " ++ py "in stock")).
Proof.
  apply appended_phrase_never_lowers_scores.
  apply listed. vm_compute. reflexivity.
Defined.


(** In ["how many adidas models"] the pattern word is not detected: it is
    not the case that the pattern fires, the override holds it back and
    ['sql'] is returned. *)
Lemma models_is_not_the_word_model :
  _is_product_name_query
    (str_strip (str_lower (py "how many adidas models"))) = false
  /\ d_product_pattern (get_classification_details
                          (py "how many adidas models")) = false
  /\ ~ (_is_product_name_query
          (str_strip (str_lower (py "how many adidas models"))) = true
        /\ _has_override_sql
             (str_strip (str_lower (py "how many adidas models"))) = true
        /\ fst (classify_intent (py "how many adidas models") None fresh)
           = Returns (py "sql")).
Proof.
  split; [vm_compute; reflexivity|]. split; [vm_compute; reflexivity|].
  intros [H _]. vm_compute in H. discriminate.
Defined.

(** The model is down both times [xyz] is asked: it is called twice. *)
Lemma failed_escalation_is_repeated :
  ambiguous (py "xyz")
  /\ fst (classify_intent (py "xyz") (Some (model_down 1)) fresh)
     = Raises (ExternalError 503)
  /\ List.length
       (llm_calls
          (snd (classify_intent (py "xyz") (Some (model_down 1))
                  (snd (classify_intent (py "xyz") (Some (model_down 1))
                          fresh))))) = 2
  /\ ~ (List.length
          (llm_calls
             (snd (classify_intent (py "xyz") (Some (model_down 1))
                     (snd (classify_intent (py "xyz") (Some (model_down 1))
                             fresh))))) <= 1).
Proof.
  split; [vm_compute; reflexivity|]. split; [vm_compute; reflexivity|].
  split; [vm_compute; reflexivity|]. vm_compute. lia.
Defined.

Lemma repeated_question_is_served_from_cache_run :
  exists w2,
    classify_intent (py "xyz") (Some (model_saying 1 (py "sql")))
      (snd (classify_intent (py "xyz") (Some (model_saying 1 (py "sql")))
              fresh))
    = (Returns (py "sql"), w2)
    /\ llm_calls w2
       = llm_calls
           (snd (classify_intent (py "xyz")
                   (Some (model_saying 1 (py "sql"))) fresh))
    /\ List.length (llm_calls w2) <= S (List.length (llm_calls fresh)).
Proof.
  apply repeated_question_is_served_from_cache.
  - vm_compute. reflexivity.
  - vm_compute. reflexivity.
Defined.

Lemma classify_intent_agrees_with_details_run :
  is_label (d_intent (get_classification_details (py "top 5 cheapest nike")))
  /\ is_decided_method
       (d_method (get_classification_details (py "top 5 cheapest nike")))
  /\ exists s m,
       classify_intent (py "top 5 cheapest nike") None fresh
       = (Returns
            (d_intent (get_classification_details (py "top 5 cheapest nike"))),
          decided (py "top 5 cheapest nike")
            (d_intent (get_classification_details (py "top 5 cheapest nike")))
            (d_method (get_classification_details (py "top 5 cheapest nike")))
            s m fresh).
Proof.
  apply classify_intent_agrees_with_details.
  vm_compute. discriminate.
Defined.

End Runs.

(* ================================================================= *)
(** ** Further properties of the classifier *)

Section DecisionFacts.

Context {U : UnicodeData}.

Lemma count_matching_positive (q kw : str) (keywords : list str) :
  In kw keywords -> _contains_keyword q kw = true ->
  1 <= count_matching q keywords.
Proof.
  induction keywords as [|k keywords IH]; intros Hin Hk; [destruct Hin|].
  rewrite count_matching_cons. destruct Hin as [->|Hin].
  - rewrite Hk. lia.
  - specialize (IH Hin Hk). lia.
Qed.

Lemma count_matching_bounded (q : str) (keywords : list str) :
  count_matching q keywords <= List.length keywords.
Proof.
  induction keywords as [|k keywords IH]; [apply Nat.le_refl|].
  rewrite count_matching_cons. cbn [List.length].
  destruct (_contains_keyword q k); lia.
Qed.

Lemma override_keywords_are_structured (kw : str) :
  In kw OVERRIDE_SQL_KEYWORDS -> In kw DEFINITE_SQL.
Proof.
  intros H.
  assert (F : forallb (fun k => existsb (str_eqb k) DEFINITE_SQL)
                OVERRIDE_SQL_KEYWORDS = true) by (vm_compute; reflexivity).
  rewrite forallb_forall in F. specialize (F kw H).
  apply existsb_exists in F. destruct F as (k & Hk & E).
  apply str_eqb_eq in E. subst k. exact Hk.
Qed.

Lemma override_scores (q : str) :
  _has_override_sql q = true -> 1 <= fst (_compute_scores q).
Proof.
  unfold _has_override_sql. intros H. apply existsb_exists in H.
  destruct H as (kw & Hin & Hk). unfold _compute_scores. cbn [fst].
  apply (count_matching_positive q kw); [|exact Hk].
  apply override_keywords_are_structured, Hin.
Qed.

(** X1.  An override keyword is also a structured phrase, so a question
    with one has a structured score of at least 1 and never takes the
    product-name short cut; when it matches no semantic phrase it is sent
    to ['sql'] by [keyword_only], whether or not a product-name pattern
    fires. *)
Theorem override_beats_product_pattern (question : str)
    (model : option ChatModel) (w : World) :
  _has_override_sql (str_strip (str_lower question)) = true ->
  1 <= fst (_compute_scores (str_strip (str_lower question)))
  /\ d_method (get_classification_details question)
     <> py "product_name_pattern"
  /\ (snd (_compute_scores (str_strip (str_lower question))) = 0 ->
      classify_intent question model w
      = (Returns (py "sql"),
         decided question (py "sql") (py "keyword_only")
           (fst (_compute_scores (str_strip (str_lower question)))) 0 w)).
Proof.
  intros O. assert (S1 := override_scores _ O). split; [exact S1|].
  unfold get_classification_details, classify_intent.
  revert O S1. generalize (str_strip (str_lower question)). intros q O S1.
  rewrite O. rewrite andb_false_r.
  destruct (_compute_scores q) as [s m]. cbn [fst snd] in *. split.
  - destruct (Nat.ltb m s), (Nat.ltb s m), (Nat.ltb 0 m), (Nat.ltb 0 s);
      cbn [d_method]; intros E; vm_compute in E; discriminate.
  - intros ->. destruct s as [|s]; [lia|]. reflexivity.
Qed.

(** X2.  The model and the memoisation table are touched only at a tie:
    with no model, or on a question that is not ambiguous, a call of
    [classify_intent] makes no call of a model, leaves the table as it is
    and, off a tie, prints nothing. *)
Theorem model_is_consulted_only_at_a_tie (question : str)
    (model : option ChatModel) (w : World) :
  model = None \/ ~ ambiguous question ->
  llm_calls (snd (classify_intent question model w)) = llm_calls w
  /\ llm_cache (snd (classify_intent question model w)) = llm_cache w
  /\ (~ ambiguous question ->
      stdout (snd (classify_intent question model w)) = stdout w).
Proof.
  intros H. destruct (ambiguous_dec question) as [A|A].
  - destruct H as [->|H]; [|contradiction].
    destruct (classify_intent_defaults question w A) as (s & _ & ->).
    repeat split; try reflexivity. intros N. contradiction.
  - destruct (classify_intent_decided question model w A)
      as (_ & _ & s & m & ->).
    repeat split; reflexivity.
Qed.

(** X3.  Telemetry is append-only and complete: a call that returns a
    label has put exactly one decision on top of the log, carrying the
    question as asked and the label returned; at a tie a warning for the
    question lies right under it and the method is a fallback, otherwise
    nothing else was logged and the method is a keyword method. *)
Theorem every_answer_is_logged_once (question : str)
    (model : option ChatModel) (w w' : World) (label : str) :
  classify_intent question model w = (Returns label, w') ->
  (ambiguous question ->
   exists method s,
     log w' = Decision question label method s s
              :: Ambiguous question s s :: log w
     /\ (method = py "llm_fallback" \/ method = py "default_fallback"))
  /\ (~ ambiguous question ->
      exists method s m,
        log w' = Decision question label method s m :: log w
        /\ is_decided_method method).
Proof.
  intros R. split; intros A.
  - destruct model as [model|].
    + destruct (classify_intent_escalates question model w A) as (s & _ & E).
      rewrite E in R.
      destruct (_llm_classify question model (warned question s w))
        as [[intent|e] w1] eqn:L; [|discriminate].
      injection R as <- <-.
      assert (Lg : log w1 = log (warned question s w)).
      { destruct (cache_find (question, model_id model)
                    (llm_cache (warned question s w))) as [v|] eqn:F.
        - rewrite (llm_classify_hit _ _ _ _ F) in L.
          injection L as _ <-. reflexivity.
        - destruct (invoke model (llm_calls (warned question s w))
                      (messages_for question)) as [e|content] eqn:I.
          + rewrite (llm_classify_miss_fails _ _ _ _ F I) in L. discriminate.
          + rewrite (llm_classify_miss_replies _ _ _ _ F I) in L.
            destruct (first_token content); [|discriminate].
            cbv zeta in L.
            destruct (Nat.leb 256 (List.length
                                     (llm_cache (warned question s w))));
              injection L as _ <-; reflexivity. }
      exists (py "llm_fallback"), s. split; [|left; reflexivity].
      unfold decided. fields. rewrite Lg. reflexivity.
    + destruct (classify_intent_defaults question w A) as (s & _ & E).
      rewrite E in R. injection R as <- <-.
      exists (py "default_fallback"), s. split; [reflexivity | right; reflexivity].
  - destruct (classify_intent_decided question model w A)
      as (_ & M & s & m & E).
    rewrite E in R. injection R as <- <-.
    exists (d_method (get_classification_details question)), s, m.
    split; [reflexivity | exact M].
Qed.

End DecisionFacts.

Section CacheFacts.

Context {U : UnicodeData}.

Lemma cache_find_none_keys (key : cache_key) (c : list (cache_key * str)) :
  cache_find key c = None -> ~ In key (map fst c).
Proof.
  induction c as [|[k v] c IH]; simpl; [tauto|].
  destruct (key_eqb key k) eqn:E; [discriminate|].
  intros F [H|H]; [|exact (IH F H)].
  subst k. rewrite key_eqb_refl in E. discriminate.
Qed.

Lemma cache_remove_keys (key k : cache_key) (c : list (cache_key * str)) :
  In k (map fst (cache_remove key c)) -> In k (map fst c).
Proof.
  induction c as [|[k' v] c IH]; simpl; [tauto|].
  destruct (key_eqb key k'); simpl; tauto.
Qed.

Lemma cache_remove_nodup (key : cache_key) (c : list (cache_key * str)) :
  NoDup (map fst c) ->
  NoDup (map fst (cache_remove key c))
  /\ ~ In key (map fst (cache_remove key c)).
Proof.
  induction c as [|[k v] c IH]; simpl; intros N.
  - split; [constructor | tauto].
  - inversion N as [|? ? Hk Hc]; subst.
    destruct (key_eqb key k) eqn:E.
    + apply key_eqb_eq in E. subst k. auto.
    + destruct (IH Hc) as [N1 N2]. simpl. split.
      * constructor; [|exact N1]. intros H. apply Hk.
        eapply cache_remove_keys, H.
      * intros [H|H]; [|exact (N2 H)].
        subst k. rewrite key_eqb_refl in E. discriminate.
Qed.

Lemma cache_remove_length (key : cache_key) (c : list (cache_key * str))
    (v : str) :
  cache_find key c = Some v ->
  S (List.length (cache_remove key c)) = List.length c.
Proof.
  induction c as [|[k r] c IH]; simpl; [discriminate|].
  destruct (key_eqb key k); [reflexivity|].
  intros F. simpl. rewrite (IH F). reflexivity.
Qed.

Lemma removelast_keys (k : cache_key) (c : list (cache_key * str)) :
  In k (map fst (removelast c)) -> In k (map fst c).
Proof.
  intros H. apply in_map_iff in H. destruct H as (e & <- & He).
  apply in_map, removelast_in, He.
Qed.

Lemma removelast_nodup (c : list (cache_key * str)) :
  NoDup (map fst c) -> NoDup (map fst (removelast c)).
Proof.
  induction c as [|[k v] c IH]; intros N; [constructor|].
  cbn [removelast]. destruct c as [|e c]; [constructor|].
  inversion N as [|? ? Hk Hc]; subst. cbn [map fst].
  constructor; [|apply IH, Hc].
  intros H. apply Hk. apply removelast_keys in H. exact H.
Qed.

Lemma removelast_length (c : list (cache_key * str)) :
  c <> [] -> S (List.length (removelast c)) = List.length c.
Proof.
  induction c as [|e c IH]; [congruence|]. intros _.
  destruct c as [|e' c]; [reflexivity|].
  change (S (List.length (e :: removelast (e' :: c)))
          = List.length (e :: e' :: c)).
  cbn [List.length]. f_equal. apply IH. discriminate.
Qed.

(** The fallback keeps the table well formed: at most 256 entries, no key
    twice. *)
Lemma llm_classify_well_formed (question : str) (model : ChatModel)
    (w : World) :
  List.length (llm_cache w) <= 256 /\ NoDup (map fst (llm_cache w)) ->
  List.length (llm_cache (snd (_llm_classify question model w))) <= 256
  /\ NoDup (map fst (llm_cache (snd (_llm_classify question model w)))).
Proof.
  intros [B N].
  destruct (cache_find (question, model_id model) (llm_cache w))
    as [v|] eqn:F.
  - rewrite (llm_classify_hit _ _ _ _ F). cbn [snd llm_cache].
    destruct (cache_remove_nodup (question, model_id model) _ N) as [N1 N2].
    cbn [List.length map fst]. rewrite (cache_remove_length _ _ _ F).
    split; [exact B | constructor; assumption].
  - destruct (invoke model (llm_calls w) (messages_for question))
      as [e|content] eqn:I.
    + rewrite (llm_classify_miss_fails _ _ _ _ F I). split; assumption.
    + rewrite (llm_classify_miss_replies _ _ _ _ F I).
      destruct (first_token content) as [intent|]; [|split; assumption].
      cbv zeta. cbn [snd llm_cache].
      assert (K := cache_find_none_keys _ _ F).
      destruct (Nat.leb 256 (List.length (llm_cache w))) eqn:L.
      * apply Nat.leb_le in L. cbn [List.length map fst]. split.
        -- rewrite removelast_length; [exact B|].
           intros E. rewrite E in L. cbn in L. lia.
        -- constructor; [|apply removelast_nodup, N].
           intros H. apply K. apply removelast_keys, H.
      * apply Nat.leb_gt in L. cbn [List.length map fst]. split; [lia|].
        constructor; assumption.
Qed.

(** X4.  The memoisation table stays well formed: if it holds at most 256
    entries and no key twice before a call of [classify_intent], with any
    model and whatever the model does, it does so after it. *)
Theorem cache_stays_within_capacity (question : str)
    (model : option ChatModel) (w : World) :
  List.length (llm_cache w) <= 256 -> NoDup (map fst (llm_cache w)) ->
  List.length (llm_cache (snd (classify_intent question model w))) <= 256
  /\ NoDup (map fst (llm_cache (snd (classify_intent question model w)))).
Proof.
  intros B N. destruct (ambiguous_dec question) as [A|A].
  - destruct model as [model|].
    + destruct (classify_intent_escalates question model w A) as (s & _ & ->).
      assert (W := llm_classify_well_formed question model
                     (warned question s w) (conj B N)).
      destruct (_llm_classify question model (warned question s w))
        as [[intent|e] w1]; exact W.
    + destruct (classify_intent_defaults question w A) as (s & _ & ->).
      split; assumption.
  - destruct (classify_intent_decided question model w A)
      as (_ & _ & s & m & ->).
    split; assumption.
Qed.

Lemma cache_find_other (key key' : cache_key) (v : str)
    (c : list (cache_key * str)) :
  key' <> key ->
  cache_find key' ((key, v) :: cache_remove key c) = cache_find key' c.
Proof.
  intros D. cbn [cache_find].
  destruct (key_eqb key' key) eqn:E;
    [apply key_eqb_eq in E; contradiction|]. clear E.
  induction c as [|[k r] c IH]; [reflexivity|]. cbn [cache_remove].
  destruct (key_eqb key k) eqn:E.
  - apply key_eqb_eq in E. subst k. cbn [cache_find].
    destruct (key_eqb key' key) eqn:E';
      [apply key_eqb_eq in E'; contradiction | reflexivity].
  - cbn [cache_find]. rewrite IH. reflexivity.
Qed.

(** X5.  A call of the fallback disturbs no other entry unless the table
    is full: on a hit, on a call that raises, and on a miss below 256
    entries, what is stored under every other key is found as before; a
    miss that returns on a full table puts its label first and drops the
    least recently used entry, the last one. *)
Theorem llm_cache_evicts_only_when_full (question : str)
    (model : ChatModel) (w : World) :
  (forall key',
     key' <> (question, model_id model) ->
     (cache_find (question, model_id model) (llm_cache w) <> None
      \/ List.length (llm_cache w) < 256
      \/ (exists e, fst (_llm_classify question model w) = Raises e)) ->
     cache_find key' (llm_cache (snd (_llm_classify question model w)))
     = cache_find key' (llm_cache w))
  /\ (forall label,
        cache_find (question, model_id model) (llm_cache w) = None ->
        256 <= List.length (llm_cache w) ->
        fst (_llm_classify question model w) = Returns label ->
        llm_cache (snd (_llm_classify question model w))
        = ((question, model_id model), label) :: removelast (llm_cache w)).
Proof.
  split.
  - intros key' D H.
    destruct (cache_find (question, model_id model) (llm_cache w))
      as [v|] eqn:F.
    + rewrite (llm_classify_hit _ _ _ _ F). cbn [snd llm_cache].
      apply cache_find_other, D.
    + destruct (invoke model (llm_calls w) (messages_for question))
        as [e|content] eqn:I.
      * rewrite (llm_classify_miss_fails _ _ _ _ F I). reflexivity.
      * rewrite (llm_classify_miss_replies _ _ _ _ F I) in *.
        destruct (first_token content) as [intent|]; [|reflexivity].
        cbv zeta in *. cbn [fst snd llm_cache] in *.
        destruct H as [H|[H|[e H]]]; [congruence | | discriminate].
        apply Nat.leb_gt in H. rewrite H. cbn [cache_find].
        destruct (key_eqb key' (question, model_id model)) eqn:E;
          [apply key_eqb_eq in E; contradiction | reflexivity].
  - intros label F L R.
    destruct (invoke model (llm_calls w) (messages_for question))
      as [e|content] eqn:I.
    + rewrite (llm_classify_miss_fails _ _ _ _ F I) in R. discriminate.
    + rewrite (llm_classify_miss_replies _ _ _ _ F I) in *.
      destruct (first_token content) as [intent|]; [|discriminate].
      cbv zeta in *. cbn [fst snd llm_cache] in *.
      apply Nat.leb_le in L. rewrite L. injection R as <-. reflexivity.
Qed.

End CacheFacts.

Section DetailsFacts.

Context {U : UnicodeData}.

(** X6.  What the debug helper can report.  Its method is never one of
    the two fallback methods that [classify_intent] logs ([llm_fallback],
    [default_fallback]); it says ['ambiguous'] exactly when the short cut
    is not taken and the two scores are equal; [keyword_only] means that
    the losing score is zero and [confidence_winner] that both scores are
    positive and differ. *)
Theorem details_report (question : str) :
  d_question (get_classification_details question) = question
  /\ d_method (get_classification_details question) <> py "llm_fallback"
  /\ d_method (get_classification_details question) <> py "default_fallback"
  /\ (ambiguous question <->
      d_product_pattern (get_classification_details question)
      && negb (d_sql_override (get_classification_details question)) = false
      /\ d_sql_score (get_classification_details question)
         = d_semantic_score (get_classification_details question))
  /\ (d_method (get_classification_details question) = py "keyword_only" ->
      Nat.min (d_sql_score (get_classification_details question))
        (d_semantic_score (get_classification_details question)) = 0
      /\ d_sql_score (get_classification_details question)
         <> d_semantic_score (get_classification_details question))
  /\ (d_method (get_classification_details question)
      = py "confidence_winner" ->
      0 < Nat.min (d_sql_score (get_classification_details question))
            (d_semantic_score (get_classification_details question))
      /\ d_sql_score (get_classification_details question)
         <> d_semantic_score (get_classification_details question)).
Proof.
  unfold ambiguous, get_classification_details.
  generalize (str_strip (str_lower question)). intros q.
  destruct (_compute_scores q) as [s m].
  destruct (_is_product_name_query q && negb (_has_override_sql q)) eqn:P;
    [|destruct (Nat.ltb_spec m s), (Nat.ltb_spec s m), (Nat.ltb_spec 0 s),
        (Nat.ltb_spec 0 m); try lia];
    cbn [d_question d_intent d_method d_sql_score d_semantic_score
           d_product_pattern d_sql_override];
    rewrite P; repeat split;
    solve [ reflexivity | lia | discriminate
          | match goal with
            | E : py _ = py _ |- _ => vm_compute in E; discriminate
            end
          | intros E; vm_compute in E; discriminate
          | intros [E1 E2]; first [discriminate | lia] ].
Qed.

(** X7.  A phrase is never found inside a longer word: against a text
    made of word characters only, a phrase that begins and ends with a word
    character matches exactly when it is the whole text. *)
Theorem phrase_matches_a_word_only_whole (text phrase : str) :
  word_delimited phrase = true -> forallb is_word text = true ->
  (_contains_keyword text phrase = true <-> text = phrase).
Proof.
  intros W T. rewrite contains_keyword_whole_word by exact W. split.
  - intros (before & after & E & B1 & B2). subst text.
    rewrite !forallb_app in T. apply andb_true_iff in T. destruct T as [Tb T].
    apply andb_true_iff in T. destruct T as [_ Ta].
    assert (before = []) as ->.
    { destruct (last_chr_cases before) as [[-> _]|(init & z & -> & L)];
        [reflexivity|].
      rewrite L in B1. cbn [word_before] in B1.
      rewrite forallb_app in Tb. cbn [forallb] in Tb.
      apply andb_true_iff in Tb. destruct Tb as [_ Tb].
      apply andb_true_iff in Tb. destruct Tb as [Tb _]. congruence. }
    assert (after = []) as ->.
    { destruct after as [|c after]; [reflexivity|].
      cbn [word_at] in B2. cbn [forallb] in Ta.
      apply andb_true_iff in Ta. destruct Ta as [Ta _]. congruence. }
    rewrite app_nil_r. reflexivity.
  - intros ->. exists [], []. rewrite app_nil_r. auto.
Qed.

End DetailsFacts.

Section CaseFacts.

Context {U : UnicodeData}.

Lemma drop_space_blanks (l x : str) :
  forallb is_space l = true -> drop_space (l ++ x) = drop_space x.
Proof.
  induction l as [|c l IH]; [reflexivity|]. cbn [forallb app drop_space].
  intros H. apply andb_true_iff in H. destruct H as [Hc Hl].
  rewrite Hc. auto.
Qed.

Lemma drop_space_before_blanks (s r : str) :
  forallb is_space r = true ->
  drop_space (s ++ r)
  = match drop_space s with [] => [] | _ => drop_space s ++ r end.
Proof.
  intros Hr. induction s as [|c s IH].
  - cbn [app drop_space]. rewrite <- (app_nil_r r), drop_space_blanks by exact Hr.
    reflexivity.
  - cbn [app drop_space]. destruct (is_space c); [exact IH | reflexivity].
Qed.

(** Blanks around a text are trimmed away with those of the text itself. *)
Lemma strip_padded (l s r : str) :
  forallb is_space l = true -> forallb is_space r = true ->
  str_strip (l ++ s ++ r) = str_strip s.
Proof.
  intros Hl Hr. unfold str_strip.
  rewrite drop_space_blanks by exact Hl.
  rewrite drop_space_before_blanks by exact Hr.
  destruct (drop_space s) as [|c d] eqn:D; [reflexivity|].
  rewrite rev_app_distr, drop_space_blanks; [reflexivity|].
  rewrite forallb_rev. exact Hr.
Qed.

Lemma label_from_details (question : str) (w : World) :
  fst (classify_intent question None w)
  = Returns (if str_eqb (d_intent (get_classification_details question))
                  (py "ambiguous")
             then py "semantic"
             else d_intent (get_classification_details question)).
Proof.
  destruct (ambiguous_dec question) as [A|A].
  - destruct (classify_intent_defaults question w A) as (s & _ & ->).
    unfold ambiguous in A. rewrite A. reflexivity.
  - destruct (classify_intent_decided question None w A)
      as (_ & _ & s & m & ->).
    destruct (str_eqb _ _) eqn:E; [|reflexivity].
    apply str_eqb_eq in E. contradiction.
Qed.

(** X8.  Classification ignores the case of ASCII letters and the blanks
    around the question: two ASCII questions that agree, once lowered, up
    to blanks put around one of them get the same report from the debug
    helper (intent, method, scores, flags) and, with no model, the same
    label from [classify_intent]. *)
Theorem classification_ignores_case_and_padding
    (question question' l r : str) (w w' : World) :
  forallb is_ascii question = true -> forallb is_ascii question' = true ->
  forallb is_space l = true -> forallb is_space r = true ->
  map ascii_lower question' = l ++ map ascii_lower question ++ r ->
  d_intent (get_classification_details question')
  = d_intent (get_classification_details question)
  /\ d_method (get_classification_details question')
     = d_method (get_classification_details question)
  /\ d_sql_score (get_classification_details question')
     = d_sql_score (get_classification_details question)
  /\ d_semantic_score (get_classification_details question')
     = d_semantic_score (get_classification_details question)
  /\ d_product_pattern (get_classification_details question')
     = d_product_pattern (get_classification_details question)
  /\ d_sql_override (get_classification_details question')
     = d_sql_override (get_classification_details question)
  /\ fst (classify_intent question' None w')
     = fst (classify_intent question None w).
Proof.
  intros A A' Hl Hr E.
  assert (N : str_strip (str_lower question')
              = str_strip (str_lower question)).
  { unfold str_lower. rewrite A, A', E. apply strip_padded; assumption. }
  rewrite !label_from_details.
  unfold get_classification_details. rewrite N.
  destruct (_compute_scores (str_strip (str_lower question))) as [s m].
  destruct (if _is_product_name_query (str_strip (str_lower question))
               && negb (_has_override_sql (str_strip (str_lower question)))
            then _ else _) as [intent method].
  repeat split; reflexivity.
Qed.

Lemma ascii_lower_classes (c : N) :
  is_ascii c = true ->
  is_space (ascii_lower c) = is_space c
  /\ is_digit (ascii_lower c) = is_digit c
  /\ ignorecase_key (ascii_lower c) = ignorecase_key c.
Proof.
  intros Hc.
  assert (H := ascii_by_cases
                 (fun c => Bool.eqb (is_space (ascii_lower c)) (is_space c)
                           && Bool.eqb (is_digit (ascii_lower c)) (is_digit c)
                           && N.eqb (ignorecase_key (ascii_lower c))
                                (ignorecase_key c))
                 eq_refl c Hc).
  cbv beta in H. apply andb_true_iff in H. destruct H as [H H3].
  apply andb_true_iff in H. destruct H as [H1 H2].
  apply Bool.eqb_prop in H1. apply Bool.eqb_prop in H2.
  apply N.eqb_eq in H3. auto.
Qed.

Lemma chr_match_ignorecase (p c : N) :
  chr_match true p c = chr_eqb (ignorecase_key p) (ignorecase_key c).
Proof.
  unfold chr_match. cbn [andb]. destruct (chr_eqb p c) eqn:E; [|reflexivity].
  apply chr_eqb_eq in E. subst c. cbn [orb]. symmetry.
  apply chr_eqb_eq. reflexivity.
Qed.

Lemma in_charset_lower (cs : charset) (c : N) :
  is_ascii c = true ->
  in_charset true cs (ascii_lower c) = in_charset true cs c.
Proof.
  intros Hc. destruct (ascii_lower_classes c Hc) as (H1 & H2 & H3).
  destruct cs; cbn [in_charset]; congruence.
Qed.

Lemma at_boundary_lower (prev : option N) (s : str) :
  all_ascii prev s = true ->
  at_boundary (lower_prev prev) (map ascii_lower s) = at_boundary prev s.
Proof.
  unfold all_ascii, at_boundary. intros H. apply andb_true_iff in H.
  destruct H as [Hp Hs]. f_equal.
  - destruct prev as [c|]; [|reflexivity]. cbn.
    apply ascii_lower_keeps, Hp.
  - apply word_at_lower, Hs.
Qed.

Lemma read_literal_lower (l : str) (prev : option N) (s : str) :
  all_ascii prev s = true ->
  match read_literal true l prev s with
  | Some (prev', s') =>
      read_literal true l (lower_prev prev) (map ascii_lower s)
      = Some (lower_prev prev', map ascii_lower s')
      /\ all_ascii prev' s' = true
  | None =>
      read_literal true l (lower_prev prev) (map ascii_lower s) = None
  end.
Proof.
  revert prev s. induction l as [|p l IH]; intros prev s H.
  - cbn [read_literal]. auto.
  - destruct s as [|c s]; [reflexivity|]. cbn [read_literal map].
    unfold all_ascii in H. cbn [forallb] in H.
    apply andb_true_iff in H. destruct H as [_ H].
    apply andb_true_iff in H. destruct H as [Hc Hs].
    rewrite !chr_match_ignorecase.
    destruct (ascii_lower_classes c Hc) as (_ & _ & ->).
    destruct (chr_eqb (ignorecase_key p) (ignorecase_key c)); [|reflexivity].
    apply (IH (Some c) s). unfold all_ascii. rewrite Hc, Hs. reflexivity.
Qed.

Lemma match_repeat_lower (cs : charset) (k k' : option N -> str -> bool) :
  (forall prev s, all_ascii prev s = true ->
                  k' (lower_prev prev) (map ascii_lower s) = k prev s) ->
  forall s lo hi prev,
    all_ascii prev s = true ->
    match_repeat true cs lo hi k' (lower_prev prev) (map ascii_lower s)
    = match_repeat true cs lo hi k prev s.
Proof.
  intros K. induction s as [|c s IH]; intros lo hi prev H.
  - cbn [match_repeat map]. assert (Hk := K prev [] H). cbn [map] in Hk.
    rewrite Hk. reflexivity.
  - cbn [match_repeat map]. assert (Hk := K prev (c :: s) H).
    cbn [map] in Hk. rewrite Hk.
    unfold all_ascii in H. cbn [forallb] in H.
    apply andb_true_iff in H. destruct H as [_ H].
    apply andb_true_iff in H. destruct H as [Hc Hs].
    rewrite (in_charset_lower cs c Hc).
    change (Some (ascii_lower c)) with (lower_prev (Some c)).
    rewrite (IH (Nat.pred lo) (option_map Nat.pred hi) (Some c));
      [reflexivity|].
    unfold all_ascii. rewrite Hc, Hs. reflexivity.
Qed.

Lemma existsb_agree {A : Type} (f g : A -> bool) (l : list A) :
  (forall x, f x = g x) -> existsb f l = existsb g l.
Proof. intros H. induction l; cbn; [|rewrite H, IHl]; reflexivity. Qed.

Lemma match_here_lower (p : pattern) :
  forall prev s,
    all_ascii prev s = true ->
    match_here true p (lower_prev prev) (map ascii_lower s)
    = match_here true p prev s.
Proof.
  induction p as [|i p IH]; intros prev s H; [reflexivity|].
  destruct i as [|l|alternatives|cs lo hi]; cbn [match_here].
  - rewrite (at_boundary_lower prev s H), (IH prev s H). reflexivity.
  - assert (R := read_literal_lower l prev s H).
    destruct (read_literal true l prev s) as [[prev' s']|].
    + destruct R as [-> H']. apply IH, H'.
    + rewrite R. reflexivity.
  - apply existsb_agree. intros l.
    assert (R := read_literal_lower l prev s H).
    destruct (read_literal true l prev s) as [[prev' s']|].
    + destruct R as [-> H']. apply IH, H'.
    + rewrite R. reflexivity.
  - apply match_repeat_lower; [exact IH | exact H].
Qed.

Lemma search_from_lower (p : pattern) (s : str) :
  forall prev,
    all_ascii prev s = true ->
    search_from true p (lower_prev prev) (map ascii_lower s)
    = search_from true p prev s.
Proof.
  induction s as [|c s IH]; intros prev H; cbn [search_from map].
  - assert (Hm := match_here_lower p prev [] H). cbn [map] in Hm.
    rewrite Hm. reflexivity.
  - assert (Hm := match_here_lower p prev (c :: s) H). cbn [map] in Hm.
    rewrite Hm.
    unfold all_ascii in H. cbn [forallb] in H.
    apply andb_true_iff in H. destruct H as [_ H].
    change (Some (ascii_lower c)) with (lower_prev (Some c)).
    rewrite (IH (Some c)); [reflexivity|]. exact H.
Qed.

(** X9.  The product-name detector is blind to the case of ASCII letters:
    two ASCII texts that are equal once lowered are both product-name
    queries or neither. *)
Theorem product_name_detector_ignores_case (q q' : str) :
  forallb is_ascii q = true -> forallb is_ascii q' = true ->
  map ascii_lower q = map ascii_lower q' ->
  _is_product_name_query q = _is_product_name_query q'.
Proof.
  assert (L : forall t, forallb is_ascii t = true ->
              _is_product_name_query (map ascii_lower t)
              = _is_product_name_query t).
  { intros t Ht. unfold _is_product_name_query. apply existsb_agree.
    intros p. unfold re_search.
    apply (search_from_lower p t None). exact Ht. }
  intros A A' E. rewrite <- (L q A), <- (L q' A'), E. reflexivity.
Qed.

End CaseFacts.

(* ================================================================= *)
(** ** Properties of the SQL generation *)

Section TextToSqlFacts.

Context {U : UnicodeData} {R : PythonRuntime}.

Lemma blanks_then_number_some (s group : str) :
  blanks_then_number s = Some group ->
  exists blanks c rest,
    s = blanks ++ c :: rest
    /\ forallb is_space blanks = true
    /\ is_digit c = true
    /\ group = c :: digits_and_commas rest.
Proof.
  revert group. induction s as [|c s IH]; intros group; [discriminate|].
  cbn [blanks_then_number].
  assert (N : number_here (c :: s) = Some group ->
              exists blanks c0 rest,
                c :: s = blanks ++ c0 :: rest
                /\ forallb is_space blanks = true
                /\ is_digit c0 = true
                /\ group = c0 :: digits_and_commas rest).
  { cbn [number_here]. destruct (is_digit c) eqn:D; [|discriminate].
    intros [= <-]. exists [], c, s. auto. }
  destruct (is_space c) eqn:S; [|exact N].
  destruct (blanks_then_number s) as [g|]; [|exact N].
  intros [= <-]. destruct (IH g eq_refl) as (blanks & c0 & rest & -> & B & D & G).
  exists (c :: blanks), c0, rest. cbn [forallb app]. rewrite S, B. auto.
Qed.

Lemma first_digit_is_the_one (blanks p rest t : str) (c d : N) :
  blanks ++ c :: rest = p ++ d :: t ->
  forallb is_space blanks = true -> is_digit c = true ->
  existsb is_digit p = false -> is_space d = false ->
  blanks = p /\ c = d /\ rest = t.
Proof.
  revert p. induction blanks as [|b blanks IH]; intros p E B C P D.
  - destruct p as [|x p]; cbn [app] in E.
    + injection E as -> ->. auto.
    + injection E as -> _. cbn [existsb] in P. rewrite C in P. discriminate.
  - cbn [forallb] in B. apply andb_true_iff in B. destruct B as [Bb B].
    destruct p as [|x p]; cbn [app] in E.
    + injection E as -> _. congruence.
    + injection E as -> E. cbn [existsb] in P.
      apply orb_false_iff in P. destruct P as [_ P].
      destruct (IH p E B C P D) as (-> & -> & ->). auto.
Qed.

Lemma price_here_head_digit (c : N) (s : str) :
  is_digit c = true -> price_here (c :: s) <> None.
Proof.
  intros D. cbn [price_here].
  assert (B : blanks_then_number (c :: s) <> None).
  { cbn [blanks_then_number number_here]. rewrite D.
    destruct (is_space c); [destruct (blanks_then_number s)|]; discriminate. }
  destruct (chr_eqb c rupee); [destruct (blanks_then_number s)|];
    first [discriminate | exact B].
Qed.

Lemma price_search_none (s : str) :
  price_search s = None <-> existsb is_digit s = false.
Proof.
  induction s as [|c s IH]; [cbn; tauto|].
  cbn [price_search existsb]. split.
  - destruct (price_here (c :: s)) as [g|] eqn:P; [discriminate|].
    intros H. apply IH in H. rewrite H, orb_false_r.
    destruct (is_digit c) eqn:D; [|reflexivity].
    exfalso. exact (price_here_head_digit c s D P).
  - intros H. apply orb_false_iff in H. destruct H as [D H].
    apply IH in H. rewrite H.
    destruct (price_here (c :: s)) as [g|] eqn:P; [|reflexivity]. exfalso.
    assert (G : forall t, blanks_then_number t = Some g ->
                existsb is_digit t = true).
    { intros t T. destruct (blanks_then_number_some t g T)
        as (blanks & c0 & rest & -> & _ & D0 & _).
      rewrite existsb_app. cbn [existsb]. rewrite D0.
      rewrite orb_true_r. reflexivity. }
    apply IH in H. cbn [price_here] in P.
    destruct (chr_eqb c rupee).
    + destruct (blanks_then_number s) as [g'|] eqn:T.
      * injection P as ->. rewrite (G s T) in H. discriminate.
      * apply G in P. cbn [existsb] in P. rewrite D, H in P. discriminate.
    + apply G in P. cbn [existsb] in P. rewrite D, H in P. discriminate.
Qed.

Lemma price_search_first_number (pre tail : str) (d : N) :
  existsb is_digit pre = false ->
  is_digit d = true -> is_space d = false -> d <> rupee ->
  price_search (pre ++ d :: tail) = Some (d :: digits_and_commas tail).
Proof.
  intros P D S Rp.
  assert (G : forall p g,
            existsb is_digit p = false ->
            blanks_then_number (p ++ d :: tail) = Some g ->
            g = d :: digits_and_commas tail).
  { intros p g Hp T.
    destruct (blanks_then_number_some _ g T)
      as (blanks & c0 & rest & E & B & D0 & ->).
    destruct (first_digit_is_the_one blanks p rest tail c0 d (eq_sym E) B D0
                Hp S)
      as (_ & -> & ->).
    reflexivity. }
  induction pre as [|c pre IH].
  - cbn [app price_search price_here].
    destruct (chr_eqb d rupee) eqn:E;
      [apply chr_eqb_eq in E; contradiction|].
    cbn [blanks_then_number number_here]. rewrite S, D. reflexivity.
  - cbn [existsb] in P. apply orb_false_iff in P. destruct P as [Dc P].
    cbn [app price_search].
    destruct (price_here (c :: pre ++ d :: tail)) as [g|] eqn:H;
      [|exact (IH P)].
    f_equal. cbn [price_here] in H.
    assert (Pc : existsb is_digit (c :: pre) = false)
      by (cbn [existsb]; rewrite Dc, P; reflexivity).
    destruct (chr_eqb c rupee).
    + destruct (blanks_then_number (pre ++ d :: tail)) as [g'|] eqn:T.
      * injection H as <-. exact (G pre g' P T).
      * exact (G (c :: pre) g Pc H).
    + exact (G (c :: pre) g Pc H).
Qed.

(** X10.  The price read from a question is its first number: no price
    when the question has no digit, and only then; otherwise the number
    made of the first digit of the question and of the longest run of
    digits and commas after it, with the commas dropped, wherever a rupee
    sign or blanks stand.  (The first digit is assumed to be neither a
    blank nor the rupee sign, as every digit is.) *)
Theorem extract_price_reads_first_number :
  (forall q, _extract_price q = Value None <-> existsb is_digit q = false)
  /\ (forall pre d tail,
        existsb is_digit pre = false ->
        is_digit d = true -> is_space d = false -> d <> rupee ->
        _extract_price (pre ++ d :: tail)
        = match int_of_digits
                  (remove_commas (d :: digits_and_commas tail)) with
          | Value n => Value (Some n)
          | Error e => Error e
          end).
Proof.
  split.
  - intros q. rewrite <- price_search_none. unfold _extract_price.
    destruct (price_search q) as [g|]; [|tauto].
    destruct (int_of_digits (remove_commas g)); split; discriminate.
  - intros pre d tail P D S Rp. unfold _extract_price.
    rewrite (price_search_first_number pre tail d P D S Rp). reflexivity.
Qed.

Lemma value_eq {A : Type} (a b : A) : Value a = Value b -> a = b.
Proof. intros [= E]. exact E. Qed.

Lemma first_occurring_listed (names : list str) (q : str) (f : str -> str) :
  In (option_map f (first_occurring names q))
     (None :: map (fun b => Some (f b)) names).
Proof.
  induction names as [|b names IH]; [left; reflexivity|].
  cbn [first_occurring]. destruct (str_in b q).
  - right. left. reflexivity.
  - destruct IH as [IH|IH]; [left; exact IH | right; right; exact IH].
Qed.



(** Splits a goal about a text put together from pieces into one goal a
    piece, and settles those about a fixed piece by evaluation. *)
Ltac pieces :=
  repeat rewrite forallb_app;
  repeat (apply andb_true_intro; split);
  try assumption; try (vm_compute; reflexivity).

(** Follows the chain of rules of [generate_sql] down to each statement. *)
Ltac rules :=
  repeat (match goal with
          | |- context [if any_in ?l ?q then _ else _] =>
              destruct (any_in l q) eqn:?
          | |- context [match nonzero ?p with _ => _ end] =>
              destruct (nonzero p) eqn:?
          end).


Lemma where_clause_compares_nothing (q : str) :
  forallb no_comparison
    (_build_where (_extract_brand q) (_extract_category q)) = true.
Proof.
  assert (F : forallb
                (fun b =>
                   forallb (fun c => forallb no_comparison (_build_where b c))
                     (None :: map (fun c => Some (str_title c)) CATEGORIES))
                (None :: map (fun b => Some (str_capitalize b)) BRANDS)
              = true) by (vm_compute; reflexivity).
  rewrite forallb_forall in F.
  specialize (F _ (first_occurring_listed BRANDS q str_capitalize)).
  rewrite forallb_forall in F.
  exact (F _ (first_occurring_listed CATEGORIES q str_title)).
Qed.

(** X12.  A condition on the price is generated only for a number other
    than zero together with a comparison word: when the question has no
    number, or its first number is 0, or it has none of the comparison
    words, the statement holds neither [<] nor [>]. *)
Theorem no_price_condition_without_a_price (question sql : str) :
  generate_sql question = Value sql ->
  _extract_price (str_lower question) = Value None
  \/ _extract_price (str_lower question) = Value (Some 0%N)
  \/ (any_in (phrases ["under"; "below"; "less than";
                       "cheaper than"]%string) (str_lower question) = false
      /\ any_in (phrases ["above"; "over"; "more than";
                          "greater than"]%string) (str_lower question)
         = false) ->
  forallb no_comparison sql = true.
Proof.
  unfold generate_sql.
  assert (W := where_clause_compares_nothing (str_lower question)).
  revert W.
  generalize (_build_where (_extract_brand (str_lower question))
                (_extract_category (str_lower question))).
  destruct (_extract_price (str_lower question)) as [price|e]; [|discriminate].
  generalize (str_lower question). intros q where_ W. cbv zeta.
  intros E. apply value_eq in E. subst sql. intros H.
  assert (H' : nonzero price = None
               \/ (any_in (phrases ["under"; "below"; "less than";
                                    "cheaper than"]%string) q = false
                   /\ any_in (phrases ["above"; "over"; "more than";
                                       "greater than"]%string) q = false)).
  { destruct H as [[= ->]|[[= ->]|H]]; auto. }
  clear H.
  rules;
    try (destruct H' as [H'|[H1 H2]]; congruence);
    pieces.
Qed.





End TextToSqlFacts.

(* ================================================================= *)
(** ** Properties of the clean-up of chat text *)

Section SafeContentFacts.

Context {U : UnicodeData}.

Lemma tag_length_without_gt (inside : bool) (s : str) :
  existsb (fun c => chr_eqb c gt_sign) s = false ->
  tag_length inside s = None.
Proof.
  revert inside. induction s as [|c s IH]; intros inside H; [reflexivity|].
  cbn [existsb] in H. apply orb_false_iff in H. destruct H as [Hc H].
  cbn [tag_length]. rewrite Hc, (IH true H). reflexivity.
Qed.

(** Right after a [<] no tag closes when a [>] follows at once or no [>]
    follows at all, and only then. *)
Lemma tag_length_none (s : str) :
  tag_length false s = None ->
  (exists s', s = gt_sign :: s')
  \/ existsb (fun c => chr_eqb c gt_sign) s = false.
Proof.
  destruct s as [|c s]; [right; reflexivity|]. cbn [tag_length existsb].
  destruct (chr_eqb c gt_sign) eqn:E.
  - apply chr_eqb_eq in E. subst c. intros _. left. exists s. reflexivity.
  - intros H. right. cbn [orb].
    assert (G : forall t, tag_length true t = None ->
                existsb (fun c => chr_eqb c gt_sign) t = false).
    { induction t as [|d t IH]; [reflexivity|]. cbn [tag_length existsb].
      destruct (chr_eqb d gt_sign); [discriminate|].
      destruct (tag_length true t); [discriminate|]. intros _. exact (IH eq_refl). }
    apply G. destruct (tag_length true s); [discriminate | reflexivity].
Qed.

Lemma remove_tags_keeps_characters (c : N) (s : str) :
  forall skip, In c (remove_tags_from skip s) -> In c s.
Proof.
  induction s as [|d s IH]; intros skip; [tauto|].
  cbn [remove_tags_from]. destruct skip as [|skip].
  - destruct (chr_eqb d lt_sign);
      [destruct (tag_length false s)|];
      cbn [In]; intros H; try destruct H as [H|H]; eauto.
  - intros H. right. eauto.
Qed.

Lemma remove_tags_without_gt (s : str) (skip : nat) :
  existsb (fun c => chr_eqb c gt_sign) s = false ->
  existsb (fun c => chr_eqb c gt_sign) (remove_tags_from skip s) = false.
Proof.
  intros H.
  destruct (existsb (fun c => chr_eqb c gt_sign) (remove_tags_from skip s))
    eqn:E; [|reflexivity].
  apply existsb_exists in E. destruct E as (c & Hc & G).
  apply remove_tags_keeps_characters in Hc.
  rewrite <- H. symmetry. apply existsb_exists. exists c. auto.
Qed.

Lemma remove_tags_leaves_none (s : str) :
  forall skip, has_tag (remove_tags_from skip s) = false.
Proof.
  induction s as [|c s IH]; intros skip; [reflexivity|].
  cbn [remove_tags_from]. destruct skip as [|skip]; [|apply IH].
  destruct (chr_eqb c lt_sign) eqn:E.
  - destruct (tag_length false s) as [n|] eqn:T; [apply IH|].
    cbn [has_tag]. rewrite E, IH, orb_false_r. cbn [andb].
    destruct (tag_length_none s T) as [[s' ->]|G].
    + cbn [remove_tags_from].
      replace (chr_eqb gt_sign lt_sign) with false by reflexivity.
      cbn [tag_length].
      replace (chr_eqb gt_sign gt_sign) with true by reflexivity.
      reflexivity.
    + rewrite (tag_length_without_gt false _ (remove_tags_without_gt s 0 G)).
      reflexivity.
  - cbn [has_tag]. rewrite E, IH. reflexivity.
Qed.

Lemma tag_length_extends (inside : bool) (s r : str) (n : nat) :
  tag_length inside s = Some n -> tag_length inside (s ++ r) = Some n.
Proof.
  revert inside n. induction s as [|c s IH]; intros inside n; [discriminate|].
  cbn [app tag_length]. destruct (chr_eqb c gt_sign); [tauto|].
  destruct (tag_length true s) as [m|] eqn:T; [|discriminate].
  rewrite (IH true m T). tauto.
Qed.

Lemma has_tag_part (l s r : str) :
  has_tag (l ++ s ++ r) = false -> has_tag s = false.
Proof.
  induction l as [|c l IH].
  - cbn [app]. induction s as [|c s IHs]; [reflexivity|].
    cbn [app has_tag]. intros H. apply orb_false_iff in H.
    destruct H as [H1 H2]. rewrite (IHs H2), orb_false_r.
    destruct (chr_eqb c lt_sign); [|reflexivity]. cbn [andb] in *.
    destruct (tag_length false s) as [n|] eqn:T; [|reflexivity].
    rewrite (tag_length_extends false s r n T) in H1. discriminate.
  - cbn [app has_tag]. intros H. apply orb_false_iff in H. tauto.
Qed.

Lemma has_tag_found (before body after : str) :
  body <> [] -> ~ In gt_sign body ->
  has_tag (before ++ lt_sign :: body ++ gt_sign :: after) = true.
Proof.
  intros Ne G. induction before as [|c before IH].
  - cbn [app has_tag].
    replace (chr_eqb lt_sign lt_sign) with true by reflexivity.
    assert (T : forall inside b, ~ In gt_sign b -> (inside = true \/ b <> []) ->
                tag_length inside (b ++ gt_sign :: after) <> None).
    { intros inside b. revert inside. induction b as [|d b IHb];
        intros inside Hb Hi.
      - cbn [app tag_length].
        replace (chr_eqb gt_sign gt_sign) with true by reflexivity.
        destruct Hi as [->|Hi]; [discriminate | congruence].
      - cbn [app tag_length]. destruct (chr_eqb d gt_sign) eqn:E.
        + apply chr_eqb_eq in E. subst d. exfalso. apply Hb. left. reflexivity.
        + assert (N := IHb true (fun H => Hb (or_intror H)) (or_introl eq_refl)).
          destruct (tag_length true (b ++ gt_sign :: after));
            [discriminate | congruence]. }
    specialize (T false body G (or_intror Ne)).
    destruct (tag_length false (body ++ gt_sign :: after));
      [reflexivity | congruence].
  - cbn [app has_tag]. rewrite IH. apply orb_true_r.
Qed.

Lemma safe_content_tag_free (text : str) :
  has_tag (_safe_content text) = false.
Proof.
  unfold _safe_content, remove_tags.
  destruct (str_strip_split (remove_tags_from 0 text)) as (l & r & E & _).
  apply (has_tag_part l _ r). rewrite <- E. apply remove_tags_leaves_none.
Qed.

(** X14.  No tag survives the clean-up: whatever the text,
    [_safe_content] returns a text in which no [<] is followed by one or
    more characters other than [>] and then by a [>]. *)
Theorem safe_content_holds_no_tag (text : str) :
  has_tag (_safe_content text) = false
  /\ forall before body after,
       body <> [] -> ~ In gt_sign body ->
       _safe_content text <> before ++ lt_sign :: body ++ gt_sign :: after.
Proof.
  assert (H := safe_content_tag_free text).
  split; [exact H|]. intros before body after Ne G E.
  rewrite E, (has_tag_found before body after Ne G) in H. discriminate.
Qed.

Lemma remove_tags_of_clean (s : str) :
  has_tag s = false -> remove_tags_from 0 s = s.
Proof.
  induction s as [|c s IH]; [reflexivity|]. cbn [has_tag remove_tags_from].
  intros H. apply orb_false_iff in H. destruct H as [H1 H2].
  rewrite (IH H2). destruct (chr_eqb c lt_sign); [|reflexivity].
  destruct (tag_length false s); [discriminate | reflexivity].
Qed.

Lemma str_strip_idempotent (s : str) : str_strip (str_strip s) = str_strip s.
Proof.
  destruct (str_strip_split s) as (l & r & E & Hl & Hr).
  rewrite E at 2. symmetry. apply strip_padded; assumption.
Qed.

(** X15.  The clean-up is idempotent, and it leaves alone a text that has
    no tag and no blank at either end: cleaning a cleaned text changes
    nothing. *)
Theorem safe_content_idempotent (text : str) :
  _safe_content (_safe_content text) = _safe_content text
  /\ (has_tag text = false -> str_strip text = text ->
      _safe_content text = text).
Proof.
  split.
  - unfold _safe_content at 1. unfold remove_tags.
    rewrite (remove_tags_of_clean _ (safe_content_tag_free text)).
    unfold _safe_content. apply str_strip_idempotent.
  - intros H S. unfold _safe_content, remove_tags.
    rewrite (remove_tags_of_clean _ H). exact S.
Qed.

End SafeContentFacts.

(* ================================================================= *)
(** ** Properties of running and wording *)

Section AnswerFacts.

Context {F : Formatting}.

(** X16.  A failure of the database never comes out of [run_sql] as an
    exception: [format_answer] words it as [Query error: ] followed by the
    message; and a statement that selects no row is answered by the fixed
    sentence that no products were found. *)
Theorem database_failure_is_worded (database : str -> db_outcome)
    (sql question : str) :
  (forall message,
     database sql = DbError message ->
     format_answer (run_sql database sql) question
     = Value (py "Query error: " ++ message))
  /\ (database sql = Rows [] ->
      format_answer (run_sql database sql) question
      = Value (py "No products found matching your query.")).
Proof.
  unfold run_sql. split.
  - intros message ->. reflexivity.
  - intros ->. reflexivity.
Qed.

(** X17.  A sum or an average over no product is NULL, and
    [format_answer] does not expect it: when the only column of the first row is [total],
    [avg_price], [total_stock], [total_sold] or [total_revenue] and its
    value is NULL, [format_answer] raises [TypeError]; for [avg_rating]
    and [avg_discount] it prints [None] in the sentence. *)
Theorem null_aggregate_is_not_expected (rest : list row) (question : str) :
  (forall key,
     In key (phrases ["total"; "avg_price"; "total_stock"; "total_sold";
                      "total_revenue"]%string) ->
     format_answer ([(key, Null)] :: rest) question = Error TypeError)
  /\ format_answer ([(py "avg_rating", Null)] :: rest) question
     = Value (py "The average rating is **None / 5**.")
  /\ format_answer ([(py "avg_discount", Null)] :: rest) question
     = Value (py "The average discount is **None%**.").
Proof.
  split; [|split; reflexivity].
  intros key H. cbn [phrases map In] in H.
  repeat (destruct H as [<-|H]; [reflexivity|]). destruct H.
Qed.

Lemma starts_with_prefix (prefix rest : str) :
  starts_with prefix (prefix ++ rest) = true.
Proof.
  induction prefix as [|c prefix IH]; [reflexivity|].
  cbn [app starts_with]. rewrite IH. unfold chr_eqb.
  rewrite N.eqb_refl. reflexivity.
Qed.

(** X18.  A listing has one line a row, numbered from 1 in the order of
    the rows: when every row can be worded, the lines are as many as the
    rows and the line of the row at position [k] (from 0) begins with the
    number [k + 1], a full stop and a blank. *)
Theorem listing_numbers_every_row (results : list row) (i : N)
    (lines : list str) :
  answer_lines i results = Value lines ->
  List.length lines = List.length results
  /\ forall k line,
       nth_error lines k = Some line ->
       starts_with (str_of_int (i + N.of_nat k) ++ py ". ") line = true.
Proof.
  revert i lines. induction results as [|r results IH]; intros i lines.
  - cbn [answer_lines]. intros E.
    assert (lines = []) as -> by congruence. split; [reflexivity|].
    intros [|k] line; discriminate.
  - cbn [answer_lines]. unfold try at 1.
    destruct (line_parts r) as [parts|e]; [|discriminate].
    unfold try at 1.
    destruct (answer_lines (i + 1) results) as [lines'|e] eqn:E;
      [|discriminate].
    intros E'. destruct (IH (i + 1)%N lines' E) as [L K].
    match type of E' with
    | Value (?l :: _) = _ => assert (lines = l :: lines') as -> by congruence
    end.
    clear E'. split.
    + cbn [List.length]. rewrite L. reflexivity.
    + intros [|k] line; cbn [nth_error]; intros H.
      * match type of H with
        | Some ?l = _ => assert (line = l) as -> by congruence
        end.
        cbn [N.of_nat]. rewrite N.add_0_r, app_assoc.
        apply starts_with_prefix.
      * specialize (K k line H).
        replace (i + N.of_nat (S k))%N with (i + 1 + N.of_nat k)%N by lia.
        exact K.
Qed.

End AnswerFacts.

(* ================================================================= *)
(** ** The first classifier against the present one *)

Section LegacyFacts.

Context {U : UnicodeData} {R : PythonRuntime}.


End LegacyFacts.

(* ================================================================= *)
(** ** Further runs on concrete inputs *)

Section MoreRuns.

#[local] Existing Instance ascii_tables.
#[local] Existing Instance default_runtime.
#[local] Existing Instance integers_only.

(** [show all series products] names a pattern word and an override. *)
Lemma override_beats_product_pattern_run :
  _is_product_name_query
    (str_strip (str_lower (py "show all series products"))) = true
  /\ 1 <= fst (_compute_scores
                 (str_strip (str_lower (py "show all series products"))))
  /\ d_method (get_classification_details (py "show all series products"))
     <> py "product_name_pattern"
  /\ (snd (_compute_scores
             (str_strip (str_lower (py "show all series products")))) = 0 ->
      classify_intent (py "show all series products") None fresh
      = (Returns (py "sql"),
         decided (py "show all series products") (py "sql")
           (py "keyword_only")
           (fst (_compute_scores
                   (str_strip (str_lower (py "show all series products")))))
           0 fresh)).
Proof.
  split; [vm_compute; reflexivity|].
  apply override_beats_product_pattern. vm_compute. reflexivity.
Defined.

Lemma model_is_consulted_only_at_a_tie_run :
  llm_calls (snd (classify_intent (py "top 5 cheapest nike")
                    (Some (model_down 1)) fresh)) = llm_calls fresh
  /\ llm_cache (snd (classify_intent (py "top 5 cheapest nike")
                       (Some (model_down 1)) fresh)) = llm_cache fresh
  /\ (~ ambiguous (py "top 5 cheapest nike") ->
      stdout (snd (classify_intent (py "top 5 cheapest nike")
                     (Some (model_down 1)) fresh)) = stdout fresh).
Proof.
  apply model_is_consulted_only_at_a_tie.
  right. vm_compute. discriminate.
Defined.

Lemma every_answer_is_logged_once_run :
  (ambiguous (py "xyz") ->
   exists method s,
     log (snd (classify_intent (py "xyz")
                 (Some (model_saying 1 (py "sql"))) fresh))
     = Decision (py "xyz") (py "sql") method s s
       :: Ambiguous (py "xyz") s s :: log fresh
     /\ (method = py "llm_fallback" \/ method = py "default_fallback"))
  /\ (~ ambiguous (py "xyz") ->
      exists method s m,
        log (snd (classify_intent (py "xyz")
                    (Some (model_saying 1 (py "sql"))) fresh))
        = Decision (py "xyz") (py "sql") method s m :: log fresh
        /\ is_decided_method method).
Proof.
  apply (every_answer_is_logged_once (py "xyz")
           (Some (model_saying 1 (py "sql"))) fresh).
  vm_compute. reflexivity.
Defined.

Lemma cache_stays_within_capacity_run :
  List.length
    (llm_cache (snd (classify_intent (py "xyz")
                       (Some (model_saying 1 (py "sql"))) fresh))) <= 256
  /\ NoDup (map fst
              (llm_cache (snd (classify_intent (py "xyz")
                                 (Some (model_saying 1 (py "sql")))
                                 fresh)))).
Proof.
  apply cache_stays_within_capacity.
  - apply Nat.le_0_l.
  - constructor.
Defined.

Lemma llm_cache_evicts_only_when_full_run :
  cache_find (py "abc", 1)
    (llm_cache (snd (_llm_classify (py "xyz") (model_saying 1 (py "sql"))
                       (snd (_llm_classify (py "abc")
                               (model_saying 1 (py "semantic")) fresh)))))
  = cache_find (py "abc", 1)
      (llm_cache (snd (_llm_classify (py "abc")
                         (model_saying 1 (py "semantic")) fresh))).
Proof.
  apply (proj1 (llm_cache_evicts_only_when_full (py "xyz")
                  (model_saying 1 (py "sql"))
                  (snd (_llm_classify (py "abc")
                          (model_saying 1 (py "semantic")) fresh)))).
  - vm_compute. discriminate.
  - right. left. vm_compute. lia.
Defined.

Lemma phrase_matches_a_word_only_whole_run :
  _contains_keyword (py "unpopular") (py "popular") = true
  <-> py "unpopular" = py "popular".
Proof.
  apply phrase_matches_a_word_only_whole; vm_compute; reflexivity.
Defined.

Lemma classification_ignores_case_and_padding_run :
  d_intent (get_classification_details (py "  HOW Many shoes  "))
  = d_intent (get_classification_details (py "how many shoes"))
  /\ d_method (get_classification_details (py "  HOW Many shoes  "))
     = d_method (get_classification_details (py "how many shoes"))
  /\ d_sql_score (get_classification_details (py "  HOW Many shoes  "))
     = d_sql_score (get_classification_details (py "how many shoes"))
  /\ d_semantic_score (get_classification_details (py "  HOW Many shoes  "))
     = d_semantic_score (get_classification_details (py "how many shoes"))
  /\ d_product_pattern (get_classification_details (py "  HOW Many shoes  "))
     = d_product_pattern (get_classification_details (py "how many shoes"))
  /\ d_sql_override (get_classification_details (py "  HOW Many shoes  "))
     = d_sql_override (get_classification_details (py "how many shoes"))
  /\ fst (classify_intent (py "  HOW Many shoes  ") None fresh)
     = fst (classify_intent (py "how many shoes") None fresh).
Proof.
  apply (classification_ignores_case_and_padding (py "how many shoes")
           (py "  HOW Many shoes  ") (py "  ") (py "  "));
    vm_compute; reflexivity.
Defined.

Lemma product_name_detector_ignores_case_run :
  _is_product_name_query (py "Redmi MODEL 35")
  = _is_product_name_query (py "redmi model 35").
Proof.
  apply product_name_detector_ignores_case; vm_compute; reflexivity.
Defined.

(** In [top 5 under 30000] the price is 5. *)
Lemma extract_price_reads_first_number_run :
  _extract_price (py "top " ++ 53%N :: py " under 30,000")
  = match int_of_digits
            (remove_commas (53%N :: digits_and_commas (py " under 30,000")))
    with
    | Value n => Value (Some n)
    | Error e => Error e
    end
  /\ _extract_price (py "top 5 under 30,000") = Value (Some 5%N)
  /\ _extract_price (py "under 30,000") = Value (Some 30000%N).
Proof.
  split; [|split; vm_compute; reflexivity].
  apply (proj2 extract_price_reads_first_number (py "top ") 53%N
           (py " under 30,000")).
  - vm_compute. reflexivity.
  - vm_compute. reflexivity.
  - vm_compute. reflexivity.
  - vm_compute. discriminate.
Defined.


Lemma no_price_condition_without_a_price_run :
  generate_sql (py "shoes under 0")
  = Value (py "SELECT COUNT(*) as total FROM products ")
  /\ forallb no_comparison (py "SELECT COUNT(*) as total FROM products ")
     = true.
Proof.
  assert (E : generate_sql (py "shoes under 0")
              = Value (py "SELECT COUNT(*) as total FROM products "))
    by (vm_compute; reflexivity).
  split; [exact E|].
  apply (no_price_condition_without_a_price (py "shoes under 0") _ E).
  right. left. vm_compute. reflexivity.
Defined.


Lemma safe_content_holds_no_tag_run :
  _safe_content (py " <b>Nike</b> <i<b>>shoes ") = py "Nike >shoes"
  /\ _safe_content (py " <b>Nike</b> <i<b>>shoes ")
     <> py "Nike " ++ lt_sign :: py "b" ++ gt_sign :: py "shoes".
Proof.
  split; [vm_compute; reflexivity|].
  apply (proj2 (safe_content_holds_no_tag (py " <b>Nike</b> <i<b>>shoes "))).
  - discriminate.
  - vm_compute. intros [H|[]]. discriminate.
Defined.

Lemma safe_content_idempotent_run :
  _safe_content (py "1 < 2 > 1") = py "1  1"
  /\ _safe_content (py "Nike shoes") = py "Nike shoes".
Proof.
  split; [vm_compute; reflexivity|].
  apply (proj2 (safe_content_idempotent (py "Nike shoes")));
    vm_compute; reflexivity.
Defined.

Lemma database_failure_is_worded_run :
  format_answer (run_sql database_down (py "SELECT 1")) (py "how many")
  = Value (py "Query error: " ++ py "unable to open database file").
Proof.
  apply (proj1 (database_failure_is_worded database_down (py "SELECT 1")
                  (py "how many"))).
  reflexivity.
Defined.

Lemma null_aggregate_is_not_expected_run :
  format_answer [[(py "total_stock", Null)]] (py "total stock of hp")
  = Error TypeError.
Proof.
  apply (proj1 (null_aggregate_is_not_expected [] (py "total stock of hp"))).
  vm_compute. tauto.
Defined.

Lemma listing_numbers_every_row_run :
  List.length
    [py "1. **Shoe** " ++ dash ++ py " Nike";
     py "2. **Cap** " ++ dash ++ py " Puma"]
  = List.length
      [[(py "product_name", Text (py "Shoe")); (py "brand", Text (py "Nike"))];
       [(py "product_name", Text (py "Cap")); (py "brand", Text (py "Puma"))]]
  /\ forall k line,
       nth_error
         [py "1. **Shoe** " ++ dash ++ py " Nike";
          py "2. **Cap** " ++ dash ++ py " Puma"] k = Some line ->
       starts_with (str_of_int (1 + N.of_nat k) ++ py ". ") line = true.
Proof.
  apply (listing_numbers_every_row
           [[(py "product_name", Text (py "Shoe"));
             (py "brand", Text (py "Nike"))];
            [(py "product_name", Text (py "Cap"));
             (py "brand", Text (py "Puma"))]] 1%N).
  vm_compute. reflexivity.
Defined.

Lemma details_report_run :
  Nat.min
    (d_sql_score (get_classification_details (py "popular color options")))
    (d_semantic_score
       (get_classification_details (py "popular color options"))) = 0
  /\ d_sql_score (get_classification_details (py "popular color options"))
     <> d_semantic_score
          (get_classification_details (py "popular color options")).
Proof.
  apply (proj1 (proj2 (proj2 (proj2 (proj2
           (details_report (py "popular color options"))))))).
  vm_compute. reflexivity.
Defined.


End MoreRuns.
